(** * gopherbot workqueue: envelope codec, publisher, registry and dispatch

    A shallow embedding of [internal/gateway/gateway.go] (package
    [workqueue]): the event-to-stream constants, [Publish],
    [parseGatewayMessage], [unix] and the three handler factories, with the
    properties of the queueing contract proved about them. *)

From Stdlib Require Import ZArith Lia String Ascii List.
From Stdlib Require Import DecimalString DecimalPos.
From stdpp Require Import gmap strings.

Local Open Scope string_scope.
Local Open Scope Z_scope.

(** ** Machine integers *)

Module Int64.

Definition min_int : Z := - 2 ^ 63.
Definition max_int : Z := 2 ^ 63 - 1.
Definition max_uint : Z := 2 ^ 64 - 1.

Definition in_range (z : Z) : Prop := min_int <= z <= max_int.

(** Two's-complement wrap-around of a mathematical integer to int64. *)
Definition wrap (z : Z) : Z := (z + 2 ^ 63) mod 2 ^ 64 - 2 ^ 63.

(** Go's [/] and [%] on int64 truncate toward zero. *)
Definition div (a b : Z) : Z := wrap (Z.quot a b).
Definition rem (a b : Z) : Z := wrap (Z.rem a b).
Definition mul (a b : Z) : Z := wrap (a * b).
Definition add (a b : Z) : Z := wrap (a + b).
Definition sub (a b : Z) : Z := wrap (a - b).

(** Saturation, as [time.Time.Sub] and [time.Time.Add] do. *)
Definition saturate (z : Z) : Z := Z.max min_int (Z.min max_int z).

End Int64.

(** ** Errors

    Go [error] values.  [errors.New] carries a message, [*strconv.NumError]
    carries the function, the offending input and the kind, and
    [fmt.Errorf] with a [%q] argument and a [%w] verb wraps an inner
    error.  A nil error is [None] of [option error]. *)

Inductive NumErrKind : Type := ErrSyntax | ErrRange.

Inductive error : Type :=
| errors_New (msg : string)
| NumError (func num : string) (kind : NumErrKind)
| fmt_Errorf (format : string) (arg : string) (wrapped : error).

(** ** strconv, base 10, 64 bits *)

Module strconv.

Definition digit_of (c : ascii) : option Z :=
  let n := Z.of_N (N_of_ascii c) in
  if (48 <=? n) && (n <=? 57) then Some (n - 48) else None.

(** The digit loop of [ParseUint] in base 10 with [bitSize] 64: a byte
    that is not a digit is a syntax error, and exceeding [2^64 - 1] is a
    range error, reported as soon as it is met. *)
Fixpoint ParseUint_loop (s : string) (n : Z) : NumErrKind + Z :=
  match s with
  | EmptyString => inr n
  | String c s' =>
      match digit_of c with
      | None => inl ErrSyntax
      | Some d =>
          if Int64.max_uint / 10 + 1 <=? n then inl ErrRange
          else
            let n1 := n * 10 + d in
            if Int64.max_uint <? n1 then inl ErrRange
            else ParseUint_loop s' n1
      end
  end.

Definition ParseUint (s : string) : NumErrKind + Z :=
  match s with
  | EmptyString => inl ErrSyntax
  | _ => ParseUint_loop s 0
  end.

(** [strconv.ParseInt(s, 10, 64)]. *)
Definition ParseInt (s : string) : error + Z :=
  match s with
  | EmptyString => inl (NumError "ParseInt" s ErrSyntax)
  | String c rest =>
      let '(neg, body) :=
        if Ascii.eqb c "+"%char then (false, rest)
        else if Ascii.eqb c "-"%char then (true, rest)
        else (false, s) in
      match ParseUint body with
      | inl ErrSyntax => inl (NumError "ParseInt" s ErrSyntax)
      | inl ErrRange => inl (NumError "ParseInt" s ErrRange)
      | inr un =>
          let cutoff := 2 ^ 63 in
          if negb neg && (cutoff <=? un) then
            inl (NumError "ParseInt" s ErrRange)
          else if neg && (cutoff <? un) then
            inl (NumError "ParseInt" s ErrRange)
          else inr (if neg then - un else un)
      end
  end.

(** The number a decimal numeral denotes when read after [acc]. *)
Fixpoint uint_value (u : Decimal.uint) (acc : Z) : Z :=
  match u with
  | Decimal.Nil => acc
  | Decimal.D0 u => uint_value u (10 * acc)
  | Decimal.D1 u => uint_value u (10 * acc + 1)
  | Decimal.D2 u => uint_value u (10 * acc + 2)
  | Decimal.D3 u => uint_value u (10 * acc + 3)
  | Decimal.D4 u => uint_value u (10 * acc + 4)
  | Decimal.D5 u => uint_value u (10 * acc + 5)
  | Decimal.D6 u => uint_value u (10 * acc + 6)
  | Decimal.D7 u => uint_value u (10 * acc + 7)
  | Decimal.D8 u => uint_value u (10 * acc + 8)
  | Decimal.D9 u => uint_value u (10 * acc + 9)
  end.

(** [strconv.FormatInt(i, 10)]: the shortest decimal numeral, with a
    leading minus sign for a negative number. *)
Definition FormatInt (i : Z) : string :=
  match i with
  | Z0 => "0"
  | Zpos p => NilEmpty.string_of_uint (Pos.to_uint p)
  | Zneg p => String "-"%char (NilEmpty.string_of_uint (Pos.to_uint p))
  end.

End strconv.

(** ** Time

    A [time.Time] is kept as its Unix seconds and the nanoseconds within
    the second; the location plays no role in what follows.  Durations are
    nanosecond counts. *)

Record Time : Type := mkTime { t_sec : Z; t_nsec : Z }.

Definition Duration : Type := Z.

Definition Millisecond : Duration := 1000000.

(** [time.Unix(sec, nsec)]: a nanosecond count outside [0, 1e9) is carried
    into the seconds. *)
Definition time_Unix (sec nsec : Z) : Time :=
  if (nsec <? 0) || (1000000000 <=? nsec) then
    let n := Z.quot nsec 1000000000 in
    let sec := Int64.add sec n in
    let nsec := nsec - n * 1000000000 in
    if nsec <? 0 then mkTime (Int64.sub sec 1) (nsec + 1000000000)
    else mkTime sec nsec
  else mkTime sec nsec.

Definition Time_UnixNano (t : Time) : Z :=
  Int64.wrap (t_sec t * 1000000000 + t_nsec t).

(** [t.Sub(u)], saturating at the ends of int64. *)
Definition Time_Sub (t u : Time) : Duration :=
  Int64.saturate ((t_sec t - t_sec u) * 1000000000 + (t_nsec t - t_nsec u)).

(** [t.After(u)]. *)
Definition Time_After (t u : Time) : bool :=
  (t_sec u <? t_sec t) || ((t_sec t =? t_sec u) && (t_nsec u <? t_nsec t)).

(** [t.Add(d)]. *)
Definition Time_Add (t : Time) (d : Duration) : Time :=
  time_Unix (t_sec t) (t_nsec t + d).

(** ** Transport messages

    A [redisqueue.Message] carries the transport id, the stream and a
    [map[string]interface{}] of values.  A value of interface type is
    either a string or something else. *)

Inductive iface : Type :=
| IString (s : string)
| IInt64 (z : Z)
| IBytes (b : list Byte.byte)
| INil.

Record Message : Type := mkMessage {
  ID : string;
  Stream : string;
  Values : gmap string iface
}.

(** ** Events and streams *)

Definition Event : Type := string.

Definition slackPublicMessage : string := "slack_message_public".
Definition slackPrivateMessage : string := "slack_message_private".
Definition slackTeamJoin : string := "slack_team_join".
Definition slackChannelJoin : string := "slack_channel_join".

Definition SlackMessageChannel : Event := slackPublicMessage.
Definition SlackMessageAppHome : Event := slackPrivateMessage.
Definition SlackMessageGroup : Event := slackPrivateMessage.
Definition SlackMessageIM : Event := slackPrivateMessage.
Definition SlackMessageMPIM : Event := slackPrivateMessage.
Definition SlackTeamJoin : Event := slackTeamJoin.
Definition SlackChannelJoin : Event := slackChannelJoin.

(** The named events of the package, in declaration order. *)
Definition named_events : list Event :=
  [SlackMessageChannel; SlackMessageAppHome; SlackMessageGroup;
   SlackMessageIM; SlackMessageMPIM; SlackTeamJoin; SlackChannelJoin].

(** ** Logging (zerolog)

    A logger is the list of context fields added with [With()]; an emitted
    event has a level, the logger's fields followed by its own, and a
    message. *)

Inductive Level : Type := InfoLevel | WarnLevel | ErrorLevel.

Inductive Field : Type :=
| FStr (key val : string)
| FTime (key : string) (t : Time)
| FTimeDiff (key : string) (d : Duration)
| FDur (key : string) (d : Duration)
| FBool (key : string) (b : bool)
| FErr (e : error).

(** [TimeDiff(key, t, start)]: the duration from [start] to [t], and zero
    when [t] is not after [start]. *)
Definition TimeDiff (key : string) (t start : Time) : Field :=
  FTimeDiff key (if Time_After t start then Time_Sub t start else 0).

Definition Logger : Type := list Field.

(** [l.With().<fields>.Logger()]: a child logger with further fields. *)
Definition With (l : Logger) (fs : list Field) : Logger := (l ++ fs)%list.

Record LogEvent : Type := mkLogEvent {
  lvl : Level;
  fields : list Field;
  msg : string
}.

(** ** Event metadata and the dispatch context *)

Record EventMetadata : Type := mkEventMetadata {
  em_ID : string;
  em_Time : Time;
  em_EnqueueTime : Time;
  em_RedisID : string
}.

(** A [context.Context] made by [WithTimeout] is identified by its
    deadline. *)
Record Context : Type := mkContext { deadline : Time }.

(** ** The world: wall clock and trace of effects

    The wrappers read the wall clock, write log events, create and cancel
    contexts and call the registered handler.  The trace records these in
    order. *)

Inductive Effect : Type :=
| ELog (e : LogEvent)
| EWithTimeout (c : Context)
| ECall (c : Context) (e : EventMetadata)
| ECancel (c : Context).

Record World : Type := mkWorld {
  wall : Z;               (* wall clock, Unix nanoseconds *)
  trace : list Effect
}.

Definition M (A : Type) : Type := World -> A * World.

Definition ret {A} (a : A) : M A := fun w => (a, w).

Definition bind {A B} (m : M A) (k : A -> M B) : M B :=
  fun w => let '(a, w') := m w in k a w'.

Notation "'let!' x ':=' m 'in' k" := (bind m (fun x => k))
  (at level 10, x name, m at level 100, k at level 200).
Notation "'let!' ' p ':=' m 'in' k" := (bind m (fun 'p => k))
  (at level 10, p pattern, m at level 100, k at level 200).
Notation "'do!' m 'then' k" := (bind m (fun _ => k))
  (at level 10, m at level 100, k at level 200).

Definition emit (e : Effect) : M unit :=
  fun w => (tt, mkWorld (wall w) (trace w ++ [e])%list).

Definition time_Now : M Time :=
  fun w => (time_Unix 0 (wall w), w).

(** [time.Since(t)] is [time.Now().Sub(t)]. *)
Definition time_Since (t : Time) : M Duration :=
  fun w => (Time_Sub (time_Unix 0 (wall w)) t, w).

(** [logger.<Level>().<fields>.Msg(msg)]. *)
Definition Msg (l : Logger) (level : Level) (fs : list Field) (m : string) : M unit :=
  emit (ELog (mkLogEvent level (l ++ fs)%list m)).

(** [context.WithTimeout(context.Background(), timeout)]: the deadline is
    the present time plus the timeout; the cancel function is [cancel] of
    the context returned. *)
Definition context_WithTimeout (timeout : Duration) : M Context :=
  fun w =>
    let c := mkContext (Time_Add (time_Unix 0 (wall w)) timeout) in
    (c, mkWorld (wall w) (trace w ++ [EWithTimeout c])%list).

Definition cancel (c : Context) : M unit := emit (ECancel c).

(** ** Envelope codec *)

(** [unix]: milliseconds to whole seconds and the remainder in
    nanoseconds, in int64 arithmetic. *)
Definition unix (i : Z) : Z * Z :=
  (Int64.div i 1000, Int64.mul (Int64.rem i 1000) Millisecond).

Definition parseGatewayMessage (m : Message)
  : error + (string * Time * Time * string) :=
  match Values m !! "event_ts" with
  | None => inl (errors_New "redis stream malformed: event_ts not present")
  | Some eti =>
  match Values m !! "gateway_ts" with
  | None => inl (errors_New "redis stream malformed: gateway_ts not present")
  | Some gti =>
  match Values m !! "event_id" with
  | None => inl (errors_New "redis stream malformed: event_id not present")
  | Some eidi =>
  match Values m !! "json" with
  | None => inl (errors_New "redis stream malformed: json data not present")
  | Some di =>
  match di with
  | IString d =>
  match eidi with
  | IString eid =>
  match eti with
  | IString ets =>
  match gti with
  | IString gts =>
  match strconv.ParseInt ets with
  | inl err => inl (fmt_Errorf "failed to parse event_ts %q: %w" ets err)
  | inr et =>
  match strconv.ParseInt gts with
  | inl err => inl (fmt_Errorf "failed to parse gateway_ts %q: %w" gts err)
  | inr gt =>
      let ett := time_Unix et 0 in
      let '(s, ns) := unix gt in
      let gtt := time_Unix s ns in
      inr (eid, ett, gtt, d)
  end end
  | _ => inl (errors_New "gateway_ts is not a string") end
  | _ => inl (errors_New "event_ts is not a string") end
  | _ => inl (errors_New "event_id data is not a string") end
  | _ => inl (errors_New "json data is not a string") end
  end end end end.

(** The fields [parseGatewayMessage] reads, in the order it checks them,
    and the error it gives for one that is absent. *)
Definition decoded_fields : list string :=
  ["event_ts"; "gateway_ts"; "event_id"; "json"].

Definition not_present (field : string) : error :=
  errors_New
    ("redis stream malformed: "
       ++ (if String.eqb field "json" then "json data" else field)
       ++ " not present")%string.


(** ** Publisher *)

(** The message [Publish] hands to the producer; [now] is the wall clock
    sampled by [time.Now()], in Unix nanoseconds. *)
Definition Publish_message (now : Z) (e : Event) (eventTimestamp : Z)
    (eventID requestID : string) (jsonData : list Byte.byte) : Message :=
  mkMessage EmptyString e
    (<["request_id" := IString requestID]>
     (<["gateway_ts" := IString (strconv.FormatInt
          (Int64.div (Time_UnixNano (time_Unix 0 now)) Millisecond))]>
     (<["event_ts" := IString (strconv.FormatInt eventTimestamp)]>
     (<["event_id" := IString eventID]>
     (<["json" := IString (string_of_list_byte jsonData)]> ∅))))).

Section Publisher.

(** The producer's [Enqueue], with the state of the transport. *)
Context {Transport : Type}.
Variable Enqueue : Message -> Transport -> option error * Transport.

Definition Publish (e : Event) (eventTimestamp : Z)
    (eventID requestID : string) (jsonData : list Byte.byte)
    (w : World) (t : Transport) : option error * Transport :=
  Enqueue (Publish_message (wall w) e eventTimestamp eventID requestID jsonData) t.

End Publisher.

(** ** encoding/json into a pointer

    [json.Unmarshal(data, &p)] with [p] of pointer type [*T].  The package
    documents: "To unmarshal JSON into a pointer, Unmarshal first handles
    the case of the JSON being the JSON literal null.  In that case,
    Unmarshal sets the pointer to nil.  Otherwise, Unmarshal unmarshals the
    JSON into the value pointed at by the pointer."  The decoding of a
    value of type [T] itself is a parameter. *)

Module json.

Definition is_space (b : Byte.byte) : bool :=
  match b with
  | Byte.x20 | Byte.x09 | Byte.x0a | Byte.x0d => true
  | _ => false
  end.

Fixpoint skip_space (data : list Byte.byte) : list Byte.byte :=
  match data with
  | b :: rest => if is_space b then skip_space rest else data
  | [] => []
  end.

(** The input is the literal [null], surrounded by white space only. *)
Definition is_null (data : list Byte.byte) : bool :=
  match skip_space data with
  | Byte.x6e :: Byte.x75 :: Byte.x6c :: Byte.x6c :: rest =>
      match skip_space rest with [] => true | _ => false end
  | _ => false
  end.

Definition Unmarshal {T : Type} (decode : list Byte.byte -> error + T)
    (data : list Byte.byte) : error + option T :=
  if is_null data then inr None
  else match decode data with
       | inl err => inl err
       | inr v => inr (Some v)
       end.

End json.

(** ** Handlers and the dispatch wrappers *)

Section Workqueue.

(** The collaborators handed to handlers, and the Slack domain types. *)
Variables SlackClient SlackUser ChannelSvc : Type.
Variables MessageEvent TeamJoinEvent MemberJoinedChannelEvent : Type.

(** Decoding of a JSON value into each domain type. *)
Variable decode_MessageEvent : list Byte.byte -> error + MessageEvent.
Variable decode_TeamJoinEvent : list Byte.byte -> error + TeamJoinEvent.
Variable decode_MemberJoinedChannelEvent :
  list Byte.byte -> error + MemberJoinedChannelEvent.

Record ctxer : Type := mkctxer {
  ctx_Context : Context;
  ctx_s : SlackClient;
  ctx_l : Logger;
  ctx_u : SlackUser;
  ctx_c : ChannelSvc;
  ctx_e : EventMetadata
}.

(** A handler receives the context and a pointer to the domain value
    ([None] is the nil pointer), may act on the world, and returns
    [(shouldRetry, discarded, err)]. *)
Definition Handler (T : Type) : Type :=
  ctxer -> option T -> M (bool * bool * option error).

Definition MessageHandler : Type := Handler MessageEvent.
Definition TeamJoinHandler : Type := Handler TeamJoinEvent.
Definition ChannelJoinHandler : Type := Handler MemberJoinedChannelEvent.

(** [redisqueue.ConsumerFunc]. *)
Definition ConsumerFunc : Type := Message -> M (option error).

(** The call [fn(wqctx, p)], recorded in the trace. *)
Definition call {T : Type} (fn : Handler T) (wqctx : ctxer) (p : option T)
  : M (bool * bool * option error) :=
  do! emit (ECall (ctx_Context wqctx) (ctx_e wqctx)) then fn wqctx p.

Definition messageHandlerFactory (baseLogger : Logger) (sc : SlackClient)
    (botUser : SlackUser) (csvc : ChannelSvc) (timeout : Duration)
    (fn : MessageHandler) : ConsumerFunc :=
  let flogger := With baseLogger [FStr "handler" "message"] in
  fun m =>
    let! start := time_Now in
    let logger :=
      With flogger [FStr "redis_message" (ID m); FStr "redis_stream" (Stream m)] in
    match parseGatewayMessage m with
    | inl err =>
        let! now := time_Now in
        do! Msg logger ErrorLevel
              [FErr err; TimeDiff "duration" now start]
              "failed to parse message from gateway" then
        ret None
    | inr (eid, et, gt, d) =>
        let logger :=
          With logger [FTime "event_time" et; FStr "event_id" eid;
                       FTime "enqueued_time" gt] in
        match json.Unmarshal decode_MessageEvent (list_byte_of_string d) with
        | inl err =>
            let! now := time_Now in
            do! Msg logger ErrorLevel
                  [FErr err; TimeDiff "duration" now start]
                  "failed to parse message JSON" then
            ret None
        | inr sm =>
            let! ctx := context_WithTimeout timeout in
            let wqctx :=
              mkctxer ctx sc logger botUser csvc
                      (mkEventMetadata eid et gt (ID m)) in
            let! bht := time_Now in
            let! '(shouldRetry, discarded, err) := call fn wqctx sm in
            let! hrd := time_Since bht in
            do! cancel ctx then
            let logger := With logger [FDur "handler_duration" hrd] in
            match err with
            | Some e =>
                if discarded : bool then
                  let! now := time_Now in
                  do! Msg logger WarnLevel
                        [FErr e; TimeDiff "duration" now start]
                        "discarded event" then
                  ret None
                else
                  let! now := time_Now in
                  do! Msg logger ErrorLevel
                        [FErr e; FBool "should_retry" shouldRetry;
                         TimeDiff "duration" now start]
                        "handler failed" then
                  if shouldRetry : bool then ret (Some e) else ret None
            | None =>
                let! now := time_Now in
                do! Msg logger InfoLevel
                      [TimeDiff "duration" now start]
                      "complete" then
                ret None
            end
        end
    end.

Definition teamJoinHandlerFactory (baseLogger : Logger) (sc : SlackClient)
    (botUser : SlackUser) (csvc : ChannelSvc) (timeout : Duration)
    (fn : TeamJoinHandler) : ConsumerFunc :=
  let flogger := With baseLogger [FStr "handler" "team_join"] in
  fun m =>
    let! start := time_Now in
    let logger :=
      With flogger [FStr "redis_message" (ID m); FStr "redis_stream" (Stream m)] in
    match parseGatewayMessage m with
    | inl err =>
        let! now := time_Now in
        do! Msg logger ErrorLevel
              [FErr err; TimeDiff "duration" now start]
              "failed to parse message from gateway" then
        ret None
    | inr (eid, et, gt, d) =>
        let logger :=
          With logger [FTime "event_time" et; FStr "event_id" eid;
                       FTime "enqueued_time" gt] in
        match json.Unmarshal decode_TeamJoinEvent (list_byte_of_string d) with
        | inl err =>
            let! now := time_Now in
            do! Msg logger ErrorLevel
                  [FErr err; TimeDiff "duration" now start]
                  "failed to parse message JSON" then
            ret None
        | inr stj =>
            let! ctx := context_WithTimeout timeout in
            let wqctx :=
              mkctxer ctx sc logger botUser csvc
                      (mkEventMetadata eid et gt (ID m)) in
            let! bht := time_Now in
            let! '(shouldRetry, discarded, err) := call fn wqctx stj in
            let! hrd := time_Since bht in
            do! cancel ctx then
            let logger := With logger [FDur "handler_duration" hrd] in
            match err with
            | Some e =>
                if discarded : bool then
                  let! now := time_Now in
                  do! Msg logger WarnLevel
                        [FErr e; TimeDiff "duration" now start]
                        "discarded event" then
                  ret None
                else
                  let! now := time_Now in
                  do! Msg logger ErrorLevel
                        [FErr e; FBool "should_retry" shouldRetry;
                         TimeDiff "duration" now start]
                        "handler failed" then
                  if shouldRetry : bool then ret (Some e) else ret None
            | None =>
                let! now := time_Now in
                do! Msg logger InfoLevel
                      [TimeDiff "duration" now start]
                      "complete" then
                ret None
            end
        end
    end.

Definition channelJoinHandlerFactory (baseLogger : Logger) (sc : SlackClient)
    (botUser : SlackUser) (csvc : ChannelSvc) (timeout : Duration)
    (fn : ChannelJoinHandler) : ConsumerFunc :=
  let flogger := With baseLogger [FStr "handler" "channel_join"] in
  fun m =>
    let! start := time_Now in
    let logger :=
      With flogger [FStr "redis_message" (ID m); FStr "redis_stream" (Stream m)] in
    match parseGatewayMessage m with
    | inl err =>
        let! now := time_Now in
        do! Msg logger ErrorLevel
              [FErr err; TimeDiff "duration" now start]
              "failed to parse message from gateway" then
        ret None
    | inr (eid, et, gt, d) =>
        let logger :=
          With logger [FTime "event_time" et; FStr "event_id" eid;
                       FTime "enqueued_time" gt] in
        match json.Unmarshal decode_MemberJoinedChannelEvent (list_byte_of_string d) with
        | inl err =>
            let! now := time_Now in
            do! Msg logger ErrorLevel
                  [FErr err; TimeDiff "duration" now start]
                  "failed to parse message JSON" then
            ret None
        | inr mjce =>
            let! ctx := context_WithTimeout timeout in
            let wqctx :=
              mkctxer ctx sc logger botUser csvc
                      (mkEventMetadata eid et gt (ID m)) in
            let! bht := time_Now in
            let! '(shouldRetry, discarded, err) := call fn wqctx mjce in
            let! hrd := time_Since bht in
            do! cancel ctx then
            let logger := With logger [FDur "handler_duration" hrd] in
            match err with
            | Some e =>
                if discarded : bool then
                  let! now := time_Now in
                  do! Msg logger WarnLevel
                        [FErr e; TimeDiff "duration" now start]
                        "discarded event" then
                  ret None
                else
                  let! now := time_Now in
                  do! Msg logger ErrorLevel
                        [FErr e; FBool "should_retry" shouldRetry;
                         TimeDiff "duration" now start]
                        "handler failed" then
                  if shouldRetry : bool then ret (Some e) else ret None
            | None =>
                let! now := time_Now in
                do! Msg logger InfoLevel
                      [TimeDiff "duration" now start]
                      "complete" then
                ret None
            end
        end
    end.

(** *** Registration

    The consumer keeps one registration per stream;
    [RegisterWithLastID] replaces the one there was. *)

Record registeredConsumer : Type := mkRegisteredConsumer {
  rc_fn : ConsumerFunc;
  rc_id : string
}.

Definition RegisterWithLastID (stream id : string) (fn : ConsumerFunc)
    (consumers : gmap string registeredConsumer)
  : gmap string registeredConsumer :=
  <[stream := mkRegisteredConsumer fn (if String.eqb id EmptyString then "0" else id)]>
    consumers.

Record I : Type := mkI {
  i_c : gmap string registeredConsumer;
  i_l : Logger;
  i_sc : SlackClient;
  i_self : SlackUser;
  i_cs : ChannelSvc
}.

Definition with_consumers (i : I) (c : gmap string registeredConsumer) : I :=
  mkI c (i_l i) (i_sc i) (i_self i) (i_cs i).

Definition registerMessageHandler (i : I) (stream : string)
    (timeout : Duration) (fn : MessageHandler) : I :=
  with_consumers i
    (RegisterWithLastID stream "$"
       (messageHandlerFactory (i_l i) (i_sc i) (i_self i) (i_cs i) timeout fn)
       (i_c i)).

Definition RegisterPublicMessagesHandler (i : I) (timeout : Duration)
    (fn : MessageHandler) : I :=
  registerMessageHandler i slackPublicMessage timeout fn.

Definition RegisterPrivateMessagesHandler (i : I) (timeout : Duration)
    (fn : MessageHandler) : I :=
  registerMessageHandler i slackPrivateMessage timeout fn.

Definition RegisterTeamJoinsHandler (i : I) (timeout : Duration)
    (fn : TeamJoinHandler) : I :=
  with_consumers i
    (RegisterWithLastID slackTeamJoin "$"
       (teamJoinHandlerFactory (i_l i) (i_sc i) (i_self i) (i_cs i) timeout fn)
       (i_c i)).

Definition RegisterChannelJoinsHandler (i : I) (timeout : Duration)
    (fn : ChannelJoinHandler) : I :=
  with_consumers i
    (RegisterWithLastID slackChannelJoin "$"
       (channelJoinHandlerFactory (i_l i) (i_sc i) (i_self i) (i_cs i) timeout fn)
       (i_c i)).

(** *** The transport's side of the callback

    The consumer acknowledges a delivered message exactly when the
    callback returns nil; an error leaves it pending for redelivery. *)
Definition acknowledged (r : option error) : bool :=
  match r with None => true | Some _ => false end.

(** *** The dispatch pipeline as the design describes it

    One pipeline for every category: decode the envelope, decode the
    payload, build the context, invoke the handler, classify the result,
    and only for a retryable failure hand the error to the transport.
    The handler label and the payload decoder are its parameters. *)

Inductive DispatchOutcome : Type :=
| Success
| RetryableFailure (e : error)
| DiscardedFailure (e : error)
| PermanentFailure (e : error).

Definition classify (shouldRetry discarded : bool) (err : option error)
  : DispatchOutcome :=
  match err with
  | None => Success
  | Some e =>
      if discarded then DiscardedFailure e
      else if shouldRetry then RetryableFailure e
      else PermanentFailure e
  end.

Definition outcome_error (o : DispatchOutcome) : option error :=
  match o with
  | RetryableFailure e => Some e
  | _ => None
  end.

Definition outcome_log (logger : Logger) (t start : Time)
    (o : DispatchOutcome) : LogEvent :=
  match o with
  | Success =>
      mkLogEvent InfoLevel
        (logger ++ [TimeDiff "duration" t start])%list "complete"
  | DiscardedFailure e =>
      mkLogEvent WarnLevel
        (logger ++ [FErr e; TimeDiff "duration" t start])%list
        "discarded event"
  | RetryableFailure e =>
      mkLogEvent ErrorLevel
        (logger ++ [FErr e; FBool "should_retry" true;
                    TimeDiff "duration" t start])%list
        "handler failed"
  | PermanentFailure e =>
      mkLogEvent ErrorLevel
        (logger ++ [FErr e; FBool "should_retry" false;
                    TimeDiff "duration" t start])%list
        "handler failed"
  end.

Definition now (w : World) : Time := time_Unix 0 (wall w).

Definition stream_logger (label : string) (baseLogger : Logger) (m : Message)
  : Logger :=
  (baseLogger ++ [FStr "handler" label] ++
     [FStr "redis_message" (ID m); FStr "redis_stream" (Stream m)])%list.

Definition event_logger (label : string) (baseLogger : Logger) (m : Message)
    (eid : string) (et gt : Time) : Logger :=
  (stream_logger label baseLogger m ++
     [FTime "event_time" et; FStr "event_id" eid; FTime "enqueued_time" gt])%list.

(** The context of one dispatch: its deadline is the time of the
    dispatch plus the registered timeout. *)
Definition dispatch_Context (timeout : Duration) (w : World) : Context :=
  mkContext (Time_Add (now w) timeout).

Definition dispatch_ctxer (label : string) (baseLogger : Logger)
    (sc : SlackClient) (botUser : SlackUser) (csvc : ChannelSvc)
    (timeout : Duration) (m : Message) (eid : string) (et gt : Time)
    (w : World) : ctxer :=
  mkctxer (dispatch_Context timeout w) sc
          (event_logger label baseLogger m eid et gt) botUser csvc
          (mkEventMetadata eid et gt (ID m)).

(** The world in which the handler starts: the context has been created
    and the call recorded. *)
Definition world_at_call (timeout : Duration) (m : Message) (eid : string)
    (et gt : Time) (w : World) : World :=
  mkWorld (wall w)
    (trace w ++ [EWithTimeout (dispatch_Context timeout w);
                 ECall (dispatch_Context timeout w)
                       (mkEventMetadata eid et gt (ID m))])%list.

(** A message that cannot be decoded: one error-level log event, nothing
    else, and no error for the transport. *)
Definition absorbed (logger : Logger) (err : error) (text : string)
    (w : World) : option error * World :=
  (None,
   mkWorld (wall w)
     (trace w ++ [ELog (mkLogEvent ErrorLevel
                          (logger ++ [FErr err;
                                      TimeDiff "duration" (now w) (now w)])%list
                          text)])%list).

(** The world after the handler returned in [w']: the context is
    cancelled, then the outcome is logged. *)
Definition world_at_return (logger : Logger) (timeout : Duration)
    (w w' : World) (o : DispatchOutcome) : World :=
  mkWorld (wall w')
    (trace w' ++
       [ECancel (dispatch_Context timeout w);
        ELog (outcome_log
                (logger ++ [FDur "handler_duration" (Time_Sub (now w') (now w))])%list
                (now w') (now w) o)])%list.

Definition dispatch {T : Type} (label : string)
    (decode : list Byte.byte -> error + T) (baseLogger : Logger)
    (sc : SlackClient) (botUser : SlackUser) (csvc : ChannelSvc)
    (timeout : Duration) (fn : Handler T) : ConsumerFunc :=
  fun m w =>
    match parseGatewayMessage m with
    | inl err =>
        absorbed (stream_logger label baseLogger m) err
                 "failed to parse message from gateway" w
    | inr (eid, et, gt, d) =>
        match json.Unmarshal decode (list_byte_of_string d) with
        | inl err =>
            absorbed (event_logger label baseLogger m eid et gt) err
                     "failed to parse message JSON" w
        | inr p =>
            let '((shouldRetry, discarded, err), w') :=
              fn (dispatch_ctxer label baseLogger sc botUser csvc timeout
                                 m eid et gt w)
                 p (world_at_call timeout m eid et gt w) in
            let o := classify shouldRetry discarded err in
            (outcome_error o,
             world_at_return (event_logger label baseLogger m eid et gt)
                             timeout w w' o)
        end
    end.

(** A run that reached the handler, which came back with
    [(shouldRetry, discarded, err)] in the world [w']: next the context
    is cancelled, then the outcome is logged, and the error of the
    outcome is what the transport gets. *)
Definition cancel_precedes_outcome (logger : Logger) (timeout : Duration)
    (w w' : World) (shouldRetry discarded : bool) (err : option error)
    (result : option error * World) : Prop :=
  exists ev,
    snd result
    = mkWorld (wall w')
        (trace w' ++ [ECancel (dispatch_Context timeout w); ELog ev])%list
    /\ ev = outcome_log
              (logger ++ [FDur "handler_duration"
                               (Time_Sub (now w') (now w))])%list
              (now w') (now w)
              (classify shouldRetry discarded err)
    /\ fst result = outcome_error (classify shouldRetry discarded err).

(** The two ways a delivered message fails to decode. *)
Inductive DecodeFailure : Type :=
| EnvelopeFailure (err : error)
| PayloadFailure (eid : string) (et gt : Time) (d : string) (err : error).

Definition failure_error (f : DecodeFailure) : error :=
  match f with
  | EnvelopeFailure err => err
  | PayloadFailure _ _ _ _ err => err
  end.

Definition decode_fails {T : Type} (decode : list Byte.byte -> error + T)
    (m : Message) (f : DecodeFailure) : Prop :=
  match f with
  | EnvelopeFailure err => parseGatewayMessage m = inl err
  | PayloadFailure eid et gt d err =>
      parseGatewayMessage m = inr (eid, et, gt, d)
      /\ json.Unmarshal decode (list_byte_of_string d) = inl err
  end.

End Workqueue.

Arguments mkctxer {SlackClient SlackUser ChannelSvc}.
Arguments ctx_Context {SlackClient SlackUser ChannelSvc}.
Arguments ctx_s {SlackClient SlackUser ChannelSvc}.
Arguments ctx_l {SlackClient SlackUser ChannelSvc}.
Arguments ctx_u {SlackClient SlackUser ChannelSvc}.
Arguments ctx_c {SlackClient SlackUser ChannelSvc}.
Arguments ctx_e {SlackClient SlackUser ChannelSvc}.
Arguments call {SlackClient SlackUser ChannelSvc T}.
Arguments messageHandlerFactory {SlackClient SlackUser ChannelSvc MessageEvent}.
Arguments teamJoinHandlerFactory {SlackClient SlackUser ChannelSvc TeamJoinEvent}.
Arguments channelJoinHandlerFactory
  {SlackClient SlackUser ChannelSvc MemberJoinedChannelEvent}.
Arguments dispatch_ctxer {SlackClient SlackUser ChannelSvc}.
Arguments dispatch {SlackClient SlackUser ChannelSvc T}.
Arguments decode_fails {T}.
Arguments mkI {SlackClient SlackUser ChannelSvc}.
Arguments i_c {SlackClient SlackUser ChannelSvc}.
Arguments i_l {SlackClient SlackUser ChannelSvc}.
Arguments i_sc {SlackClient SlackUser ChannelSvc}.
Arguments i_self {SlackClient SlackUser ChannelSvc}.
Arguments i_cs {SlackClient SlackUser ChannelSvc}.
Arguments RegisterPublicMessagesHandler
  {SlackClient SlackUser ChannelSvc MessageEvent}.
Arguments RegisterPrivateMessagesHandler
  {SlackClient SlackUser ChannelSvc MessageEvent}.
Arguments RegisterTeamJoinsHandler
  {SlackClient SlackUser ChannelSvc TeamJoinEvent}.
Arguments RegisterChannelJoinsHandler
  {SlackClient SlackUser ChannelSvc MemberJoinedChannelEvent}.

(** * Concrete envelopes and handlers, used in the examples *)

Definition dquote : string := String (ascii_of_N 34) EmptyString.

(** The payload [{"ok":true}]. *)
Definition scenario_payload : string :=
  ("{" ++ dquote ++ "ok" ++ dquote ++ ":true}")%string.

Definition envelope (request_id event_id event_ts gateway_ts payload : iface)
  : gmap string iface :=
  <["request_id" := request_id]>
  (<["event_id" := event_id]>
  (<["event_ts" := event_ts]>
  (<["gateway_ts" := gateway_ts]>
  (<["json" := payload]> ∅)))).

Definition scenario_envelope : Message :=
  mkMessage "1526919030474-55" slackPublicMessage
    (envelope (IString "r1") (IString "e1") (IString "1700000000")
              (IString "1700000000500") (IString scenario_payload)).

(** An envelope from before the epoch: both timestamps negative. *)
Definition early_envelope : Message :=
  mkMessage "1-0" slackTeamJoin
    (envelope (IString "r2") (IString "e2") (IString "-1")
              (IString "-1500") (IString "{}")).

(** An envelope with no request id. *)
Definition envelope_without_request_id : Message :=
  mkMessage "2-0" slackPublicMessage
    (delete "request_id" (Values scenario_envelope)).

(** An envelope whose event timestamp is not a numeral. *)
Definition envelope_bad_event_ts : Message :=
  mkMessage "4-0" slackChannelJoin
    (envelope (IString "r4") (IString "e4") (IString "yesterday")
              (IString "1700000000500") (IString "{}")).

(** An envelope whose payload is the JSON literal null. *)
Definition null_envelope : Message :=
  mkMessage "3-0" slackPrivateMessage
    (envelope (IString "r3") (IString "e3") (IString "1700000000")
              (IString "1700000000500") (IString "null")).

Definition world0 : World := mkWorld 1700000001000000000 [].

(** A payload decoder that accepts every input. *)
Definition decode_any : list Byte.byte -> error + unit := fun _ => inr tt.

(** A handler that succeeds at once. *)
Definition handler_ok {S U C T : Type} : Handler S U C T :=
  fun _ _ w => ((false, false, None), w).

(** A handler that overruns: it returns a retryable error two seconds
    later. *)
Definition handler_slow {S U C T : Type} : Handler S U C T :=
  fun _ _ w =>
    ((true, false, Some (errors_New "slack: timeout")),
     mkWorld (wall w + 2000000000) (trace w)).

(** A handler that reports a nil payload as a retryable error. *)
Definition handler_nil_probe {S U C T : Type} : Handler S U C T :=
  fun _ p w =>
    (match p with
     | None => (true, false, Some (errors_New "nil payload"))
     | Some _ => (false, false, None)
     end, w).


(** The parse error of [envelope_bad_event_ts]. *)
Definition bad_event_ts_error : error :=
  fmt_Errorf "failed to parse event_ts %q: %w" "yesterday"
    (NumError "ParseInt" "yesterday" ErrSyntax).

(** A timeout of fifty milliseconds, and the context of a dispatch under
    it that starts in [world0]. *)
Definition timeout50 : Duration := 50 * Millisecond.

Definition context50 : Context := mkContext (mkTime 1700000001 50000000).


(** * What a dispatch wrapper guarantees

    Properties of a consumer function [run] built for the handler [fn]
    under the label [label], stated once and proved of each of the three
    factories. *)

Section Contract.

Context {SlackClient SlackUser ChannelSvc T : Type}.
Variables (label : string) (decode : list Byte.byte -> error + T)
          (baseLogger : Logger) (sc : SlackClient) (botUser : SlackUser)
          (csvc : ChannelSvc) (timeout : Duration)
          (fn : Handler SlackClient SlackUser ChannelSvc T)
          (run : ConsumerFunc).

(** An error reaches the transport only when the handler was called on the
    decoded message and returned that error as retryable and not
    discarded. *)
Definition surfaces_only_handler_errors : Prop :=
  forall m w e,
    fst (run m w) = Some e ->
    exists eid et gt d p w',
      parseGatewayMessage m = inr (eid, et, gt, d)
      /\ json.Unmarshal decode (list_byte_of_string d) = inr p
      /\ fn (dispatch_ctxer label baseLogger sc botUser csvc timeout
                            m eid et gt w)
            p (world_at_call timeout m eid et gt w)
         = ((true, false, Some e), w').

(** Every run ends by writing one log event.  It has the fields of the
    base logger, the handler label, the transport id and stream and a
    duration; once the envelope decoded it has the event id and both
    times; and when the run returns an error it is at error level with
    should_retry true and that error. *)
Definition ends_with_log : Prop :=
  forall m w,
    exists pre ev,
      trace (snd (run m w)) = (pre ++ [ELog ev])%list
      /\ (forall f, In f baseLogger -> In f (fields ev))
      /\ In (FStr "handler" label) (fields ev)
      /\ In (FStr "redis_message" (ID m)) (fields ev)
      /\ In (FStr "redis_stream" (Stream m)) (fields ev)
      /\ (exists d, In (FTimeDiff "duration" d) (fields ev))
      /\ (forall eid et gt d,
            parseGatewayMessage m = inr (eid, et, gt, d) ->
            In (FStr "event_id" eid) (fields ev)
            /\ In (FTime "event_time" et) (fields ev)
            /\ In (FTime "enqueued_time" gt) (fields ev))
      /\ (forall e,
            fst (run m w) = Some e ->
            lvl ev = ErrorLevel /\ In (FErr e) (fields ev)
            /\ In (FBool "should_retry" true) (fields ev)).

(** With a handler that only appends to the trace, a run appends either a
    single log event, or one context creation, the call, what the handler
    did, the cancellation of that same context and a log event: nothing
    recorded before is lost, at most one context is created, and a context
    that is created is cancelled. *)
Definition appends_one_dispatch : Prop :=
  (forall c p w0, exists hs,
      trace (snd (fn c p w0)) = (trace w0 ++ hs)%list) ->
  forall m w,
    exists added,
      trace (snd (run m w)) = (trace w ++ added)%list
      /\ ((exists ev, added = [ELog ev])
          \/ (exists c md hs ev,
                 added = ([EWithTimeout c; ECall c md] ++ hs
                            ++ [ECancel c; ELog ev])%list)).


End Contract.

(** * The test helper of package config *)

Module strings.

(** [strings.Contains(s, substr)]. *)
Fixpoint Contains (s substr : string) : bool :=
  String.prefix substr s
  || match s with
     | EmptyString => false
     | String _ s' => Contains s' substr
     end.

End strings.

(** How a call of a test helper ends: [t.Fatalf] stops the test, or the
    helper returns. *)
Inductive TestOutcome : Type :=
| Fatalf (format : string) (args : list string)
| Return (continue : bool).

Section ConfigTest.

(** [err.Error()]. *)
Variable Error : error -> string.

Definition testErrCheck (name errContains : string) (err : option error)
  : TestOutcome :=
  if (0 <? String.length errContains)%nat then
    match err with
    | None =>
        Fatalf "%s error = <nil>, should contain %q" [name; errContains]
    | Some e =>
        let errStr := Error e in
        if negb (strings.Contains errStr errContains) then
          Fatalf "%s error = %q, should contain %q"
                 [name; errStr; errContains]
        else Return false
    end
  else
    match err with
    | Some e =>
        if (String.length errContains =? 0)%nat then
          Fatalf "%s unexpected error: %v" [name; Error e]
        else Return true
    | None => Return true
    end.

End ConfigTest.

(** * Properties *)

(** ** Machine arithmetic *)

Lemma wrap_in_range z : Int64.in_range z -> Int64.wrap z = z.
Proof.
  unfold Int64.in_range, Int64.wrap, Int64.min_int, Int64.max_int.
  intros Hz. rewrite Z.mod_small; lia.
Qed.

(** ** Decimal numerals *)

Lemma uint_value_ge u : forall acc, 0 <= acc -> acc <= strconv.uint_value u acc.
Proof.
  induction u; intros acc Hacc; cbn [strconv.uint_value]; try lia;
    match goal with
    | |- _ <= strconv.uint_value _ ?a =>
        specialize (IHu a ltac:(lia)); lia
    end.
Qed.

Lemma uint_value_pos u : forall p,
  strconv.uint_value u (Zpos p) = Zpos (Pos.of_uint_acc u p).
Proof.
  induction u; intros p; cbn [strconv.uint_value Pos.of_uint_acc];
    try reflexivity;
    match goal with
    | |- strconv.uint_value _ ?a = Zpos (Pos.of_uint_acc _ ?q) =>
        replace a with (Zpos q) by lia; apply IHu
    end.
Qed.

Lemma uint_value_zero u : strconv.uint_value u 0 = Z.of_N (Pos.of_uint u).
Proof.
  induction u; cbn [strconv.uint_value Pos.of_uint]; try reflexivity;
    try (rewrite <- IHu; reflexivity);
    cbn [Z.mul Z.add Z.of_N]; apply uint_value_pos.
Qed.

Lemma ParseUint_loop_numeral u : forall n,
  0 <= n -> strconv.uint_value u n <= Int64.max_uint ->
  strconv.ParseUint_loop (NilEmpty.string_of_uint u) n
  = inr (strconv.uint_value u n).
Proof.
  induction u; intros n Hn Hle;
    cbn [NilEmpty.string_of_uint strconv.ParseUint_loop strconv.uint_value] in *;
    try reflexivity;
    match type of Hle with
    | strconv.uint_value _ ?a <= _ =>
        pose proof (uint_value_ge u a ltac:(lia)) as Hge;
        match goal with
        | |- context [strconv.digit_of ?c] =>
            let d := eval vm_compute in (strconv.digit_of c) in
            change (strconv.digit_of c) with d
        end;
        cbv beta iota;
        match goal with
        | |- context [strconv.ParseUint_loop _ ?b] =>
            replace b with a by lia
        end;
        unfold Int64.max_uint in *;
        destruct (Z.leb_spec ((2 ^ 64 - 1) / 10 + 1) n) as [Hc | Hc];
          [ change ((2 ^ 64 - 1) / 10 + 1) with 1844674407370955162 in Hc; lia | ];
        destruct (Z.ltb_spec (2 ^ 64 - 1) a) as [Hc' | Hc']; [ lia | ];
        apply IHu; [ lia | assumption ]
    end.
Qed.

Lemma ParseUint_to_uint p :
  Zpos p <= Int64.max_uint ->
  strconv.ParseUint (NilEmpty.string_of_uint (Pos.to_uint p)) = inr (Zpos p).
Proof.
  intros Hp.
  assert (Hv : strconv.uint_value (Pos.to_uint p) 0 = Zpos p).
  { rewrite uint_value_zero, DecimalPos.Unsigned.of_to. reflexivity. }
  unfold strconv.ParseUint.
  destruct (NilEmpty.string_of_uint (Pos.to_uint p)) eqn:Hs.
  - destruct (Pos.to_uint p) eqn:Hu; try discriminate Hs.
    exfalso. exact (DecimalPos.Unsigned.to_uint_nonnil p Hu).
  - rewrite <- Hs, ParseUint_loop_numeral by lia. now rewrite Hv.
Qed.

Lemma string_of_uint_head u c s :
  NilEmpty.string_of_uint u = String c s ->
  Ascii.eqb c "+"%char = false /\ Ascii.eqb c "-"%char = false.
Proof.
  destruct u; cbn [NilEmpty.string_of_uint]; intros H; inversion H;
    split; reflexivity.
Qed.

Lemma ParseInt_FormatInt z :
  Int64.in_range z -> strconv.ParseInt (strconv.FormatInt z) = inr z.
Proof.
  unfold Int64.in_range, Int64.min_int, Int64.max_int. intros Hz.
  destruct z as [| p | p]; cbn [strconv.FormatInt].
  - reflexivity.
  - pose proof (ParseUint_to_uint p) as Hp.
    unfold strconv.ParseInt.
    destruct (NilEmpty.string_of_uint (Pos.to_uint p)) as [| c s] eqn:Hs.
    + discriminate Hp; unfold Int64.max_uint; lia.
    + destruct (string_of_uint_head _ _ _ Hs) as [-> ->].
      rewrite Hp by (unfold Int64.max_uint; lia).
      cbn [negb andb].
      destruct (Z.leb_spec (2 ^ 63) (Z.pos p)); [ lia | reflexivity ].
  - unfold strconv.ParseInt. cbn [Ascii.eqb Bool.eqb].
    change (Ascii.eqb "-" "+") with false.
    change (Ascii.eqb "-" "-") with true. cbv iota.
    rewrite ParseUint_to_uint by (unfold Int64.max_uint; lia).
    cbn [negb andb].
    destruct (Z.ltb_spec (2 ^ 63) (Z.pos p)); [ lia | reflexivity ].
Qed.

Lemma ParseUint_loop_nonneg s : forall n r,
  0 <= n -> strconv.ParseUint_loop s n = inr r -> 0 <= r.
Proof.
  induction s as [| c s IH]; intros n r Hn; cbn [strconv.ParseUint_loop].
  - intros [= <-]. exact Hn.
  - unfold strconv.digit_of.
    destruct (_ && _) eqn:Hd; [ | discriminate ].
    apply andb_prop in Hd as [Hlo Hhi].
    apply Z.leb_le in Hlo.
    destruct (_ <=? n); [ discriminate | ].
    destruct (_ <? _); [ discriminate | ].
    apply IH. lia.
Qed.

Lemma ParseInt_in_range s z : strconv.ParseInt s = inr z -> Int64.in_range z.
Proof.
  unfold strconv.ParseInt, Int64.in_range, Int64.min_int, Int64.max_int.
  destruct s as [| c rest]; [ discriminate | ].
  destruct (if Ascii.eqb c "+" then _ else _) as [neg body].
  destruct (strconv.ParseUint body) as [[|] | un] eqn:Hu; try discriminate.
  assert (0 <= un).
  { unfold strconv.ParseUint in Hu. destruct body; [ discriminate | ].
    eapply ParseUint_loop_nonneg; [ | exact Hu ]. lia. }
  destruct neg; cbn [negb andb].
  - destruct (Z.ltb_spec (2 ^ 63) un); [ discriminate | ].
    intros [= <-]. lia.
  - destruct (Z.leb_spec (2 ^ 63) un); [ discriminate | ].
    intros [= <-]. lia.
Qed.

(** ** Milliseconds and instants *)

Lemma rem_bounds g b :
  0 < b ->
  (0 <= g -> 0 <= Z.rem g b < b) /\ (g < 0 -> - b < Z.rem g b <= 0).
Proof.
  intros Hb. split; intros Hs.
  - apply Z.rem_bound_pos; lia.
  - pose proof (Z.rem_bound_pos (- g) b ltac:(lia) Hb) as H.
    rewrite Z.rem_opp_l in H by lia. lia.
Qed.

Lemma unix_exact g :
  Int64.in_range g ->
  unix g = (Z.quot g 1000, Z.rem g 1000 * 1000000).
Proof.
  unfold Int64.in_range, Int64.min_int, Int64.max_int. intros Hg.
  unfold unix, Int64.div, Int64.rem, Int64.mul, Millisecond.
  pose proof (Z.quot_rem' g 1000) as Hqr.
  assert (Hr : -1000 < Z.rem g 1000 < 1000).
  { destruct (rem_bounds g 1000 ltac:(lia)) as [H1 H2]. lia. }
  rewrite (wrap_in_range (Z.quot g 1000)),
          (wrap_in_range (Z.rem g 1000)), wrap_in_range;
    unfold Int64.in_range, Int64.min_int, Int64.max_int; try lia.
  reflexivity.
Qed.

Lemma time_Unix_whole sec : time_Unix sec 0 = mkTime sec 0.
Proof. reflexivity. Qed.

(** The instant decoded from [g] milliseconds, in normal form. *)
Lemma unix_instant g :
  Int64.in_range g ->
  time_Unix (Z.quot g 1000) (Z.rem g 1000 * 1000000)
  = mkTime (g / 1000) (g mod 1000 * 1000000).
Proof.
  unfold Int64.in_range, Int64.min_int, Int64.max_int. intros Hg.
  pose proof (Z.quot_rem' g 1000) as Hqr.
  pose proof (Z.div_mod g 1000 ltac:(lia)) as Hdm.
  pose proof (Z.mod_pos_bound g 1000 ltac:(lia)) as Hm.
  destruct (rem_bounds g 1000 ltac:(lia)) as [Hr1 Hr2].
  unfold time_Unix.
  destruct (Z.ltb_spec (Z.rem g 1000 * 1000000) 0) as [Hlt | Hge];
    cbn [orb].
  - assert (Hq : Z.quot (Z.rem g 1000 * 1000000) 1000000000 = 0).
    { apply Z.quot_small_iff; lia. }
    rewrite Hq. unfold Int64.add, Int64.sub.
    rewrite Z.add_0_r, Z.mul_0_l, Z.sub_0_r.
    destruct (Z.ltb_spec (Z.rem g 1000 * 1000000) 0); [ | lia ].
    rewrite (wrap_in_range (Z.quot g 1000)), wrap_in_range;
      unfold Int64.in_range, Int64.min_int, Int64.max_int; try lia.
    f_equal; lia.
  - destruct (Z.leb_spec 1000000000 (Z.rem g 1000 * 1000000)); [ lia | ].
    f_equal; lia.
Qed.

Lemma UnixNano_now t :
  Int64.in_range t -> Time_UnixNano (time_Unix 0 t) = t.
Proof.
  unfold Int64.in_range, Int64.min_int, Int64.max_int. intros Ht.
  pose proof (Z.quot_rem' t 1000000000) as Hqr.
  destruct (rem_bounds t 1000000000 ltac:(lia)) as [Hr1 Hr2].
  assert (Hw : forall sec nsec,
             sec * 1000000000 + nsec = t ->
             Time_UnixNano (mkTime sec nsec) = t).
  { intros sec nsec E. unfold Time_UnixNano. cbn [t_sec t_nsec].
    rewrite E. apply wrap_in_range.
    unfold Int64.in_range, Int64.min_int, Int64.max_int. lia. }
  unfold time_Unix.
  destruct ((t <? 0) || (1000000000 <=? t)) eqn:Hout.
  - unfold Int64.add, Int64.sub. rewrite Z.add_0_l.
    rewrite (wrap_in_range (Z.quot t 1000000000))
      by (unfold Int64.in_range, Int64.min_int, Int64.max_int; lia).
    destruct (Z.ltb_spec (t - Z.quot t 1000000000 * 1000000000) 0).
    + rewrite wrap_in_range
        by (unfold Int64.in_range, Int64.min_int, Int64.max_int; lia).
      apply Hw. lia.
    + apply Hw. lia.
  - apply Hw. lia.
Qed.

(** ** Decoding an envelope whose fields are well formed *)

Lemma parseGatewayMessage_ok (m : Message) ets gts eid d e g :
  Values m !! "event_ts" = Some (IString ets) ->
  Values m !! "gateway_ts" = Some (IString gts) ->
  Values m !! "event_id" = Some (IString eid) ->
  Values m !! "json" = Some (IString d) ->
  strconv.ParseInt ets = inr e ->
  strconv.ParseInt gts = inr g ->
  parseGatewayMessage m
  = inr (eid, time_Unix e 0,
         time_Unix (Z.quot g 1000) (Z.rem g 1000 * 1000000), d).
Proof.
  intros He Hg Hi Hd Pe Pg. unfold parseGatewayMessage.
  rewrite He, Hg, Hi, Hd, Pe, Pg.
  rewrite (unix_exact g (ParseInt_in_range _ _ Pg)). reflexivity.
Qed.

(** * The envelope codec *)

(** C5: decoding rebuilds [event_ts] as an instant of whole seconds, with
    no sub-second part, and [gateway_ts] from the milliseconds [g] as
    [g/1000] seconds and [(g mod 1000) * 10^6] nanoseconds; the envelope
    with event_ts 1700000000, gateway_ts 1700000000500 and payload
    [{"ok":true}] decodes to the event time 1700000000 s, the enqueue time
    1700000000.500 s and that payload. *)
Theorem C5_decoded_times :
  (forall (m : Message) ets gts eid d e g,
      Values m !! "event_ts" = Some (IString ets) ->
      Values m !! "gateway_ts" = Some (IString gts) ->
      Values m !! "event_id" = Some (IString eid) ->
      Values m !! "json" = Some (IString d) ->
      strconv.ParseInt ets = inr e ->
      strconv.ParseInt gts = inr g ->
      exists et gt,
        parseGatewayMessage m = inr (eid, et, gt, d)
        /\ et = mkTime e 0
        /\ gt = time_Unix (Z.quot g 1000) (Z.rem g 1000 * 1000000)
        /\ gt = mkTime (g / 1000) (g mod 1000 * 1000000))
  /\ parseGatewayMessage scenario_envelope
     = inr ("e1", mkTime 1700000000 0, mkTime 1700000000 500000000,
            scenario_payload).
Proof.
  split; [ | reflexivity ].
  intros m ets gts eid d e g He Hg Hi Hd Pe Pg.
  exists (time_Unix e 0), (time_Unix (Z.quot g 1000) (Z.rem g 1000 * 1000000)).
  split; [ exact (parseGatewayMessage_ok m ets gts eid d e g He Hg Hi Hd Pe Pg) | ].
  split; [ apply time_Unix_whole | ].
  split; [ reflexivity | ].
  apply unix_instant. exact (ParseInt_in_range _ _ Pg).
Qed.

(** C10: decoding validates no range: whenever the four fields are strings
    and both timestamps parse as base-10 int64 numerals, zero and negative
    ones included, decoding succeeds; and for every int64 [g], [unix g] is
    the quotient [g/1000] truncated toward zero and the remainder times
    [10^6], with [1000 * q + r / 10^6 = g] and every intermediate value
    within int64. *)
Theorem C10_no_range_validation (g : Z) :
  Int64.in_range g ->
  unix g = (Z.quot g 1000, Z.rem g 1000 * 1000000)
  /\ 1000 * fst (unix g) + Z.quot (snd (unix g)) 1000000 = g
  /\ Int64.in_range (Z.quot g 1000)
  /\ Int64.in_range (Z.rem g 1000)
  /\ Int64.in_range (Z.rem g 1000 * Millisecond)
  /\ strconv.ParseInt (strconv.FormatInt g) = inr g
  /\ (forall (m : Message) ets gts eid d e,
        Values m !! "event_ts" = Some (IString ets) ->
        Values m !! "gateway_ts" = Some (IString gts) ->
        Values m !! "event_id" = Some (IString eid) ->
        Values m !! "json" = Some (IString d) ->
        strconv.ParseInt ets = inr e ->
        strconv.ParseInt gts = inr g ->
        exists et gt, parseGatewayMessage m = inr (eid, et, gt, d)).
Proof.
  intros Hg. pose proof Hg as Hg'.
  unfold Int64.in_range, Int64.min_int, Int64.max_int in Hg'.
  pose proof (Z.quot_rem' g 1000) as Hqr.
  destruct (rem_bounds g 1000 ltac:(lia)) as [Hr1 Hr2].
  rewrite (unix_exact g Hg). cbn [fst snd].
  repeat split;
    try (unfold Int64.in_range, Int64.min_int, Int64.max_int, Millisecond; lia).
  - rewrite Z.quot_mul by lia. lia.
  - apply ParseInt_FormatInt, Hg.
  - intros m ets gts eid d e He Hgt Hi Hd Pe Pg.
    eexists _, _.
    exact (parseGatewayMessage_ok m ets gts eid d e g He Hgt Hi Hd Pe Pg).
Qed.

(** C4: for a publish input with int64 timestamp, decoding the field map
    that [Publish] hands to the producer gives back the event id, the
    payload and the event timestamp in whole seconds; the enqueue time
    decoded is the wall clock read inside [Publish], cut to the
    millisecond. *)
Theorem C4_publish_decode_roundtrip {Transport : Type}
    (Enqueue : Message -> Transport -> option error * Transport)
    (t : Transport) (w : World) (e : Event) (eventTimestamp : Z)
    (eventID requestID : string) (jsonData : list Byte.byte) (m : Message) :
  Int64.in_range eventTimestamp ->
  Int64.in_range (wall w) ->
  Values m
  = Values (Publish_message (wall w) e eventTimestamp eventID requestID
                            jsonData) ->
  Publish Enqueue e eventTimestamp eventID requestID jsonData w t
  = Enqueue (Publish_message (wall w) e eventTimestamp eventID requestID
                             jsonData) t
  /\ exists gt,
    parseGatewayMessage m
    = inr (eventID, mkTime eventTimestamp 0, gt, string_of_list_byte jsonData)
    /\ list_byte_of_string (string_of_list_byte jsonData) = jsonData
    /\ gt = mkTime (Z.quot (wall w) 1000000 / 1000)
                   (Z.quot (wall w) 1000000 mod 1000 * 1000000)
    /\ Time_UnixNano gt = Z.quot (wall w) 1000000 * 1000000
    /\ Z.abs (wall w - Time_UnixNano gt) < 1000000.
Proof.
  intros Hts Hclock Hvals. split; [ reflexivity | ].
  generalize dependent (wall w). intros clock Hclock Hvals.
  pose proof Hclock as Hc.
  unfold Int64.in_range, Int64.min_int, Int64.max_int in Hc.
  pose proof (Z.quot_rem' clock 1000000) as Hqr.
  destruct (rem_bounds clock 1000000 ltac:(lia)) as [Hr1 Hr2].
  set (ms := Z.quot clock 1000000) in *.
  assert (Hms : Int64.in_range ms)
    by (unfold Int64.in_range, Int64.min_int, Int64.max_int; lia).
  assert (Hstamp : Int64.div (Time_UnixNano (time_Unix 0 clock)) Millisecond = ms).
  { rewrite (UnixNano_now clock Hclock). unfold Int64.div, Millisecond.
    apply wrap_in_range, Hms. }
  assert (Hnano : Time_UnixNano (mkTime (ms / 1000) (ms mod 1000 * 1000000))
                  = ms * 1000000).
  { unfold Time_UnixNano. cbn [t_sec t_nsec].
    pose proof (Z.div_mod ms 1000 ltac:(lia)).
    replace (ms / 1000 * 1000000000 + ms mod 1000 * 1000000)
      with (ms * 1000000) by lia.
    apply wrap_in_range.
    unfold Int64.in_range, Int64.min_int, Int64.max_int. lia. }
  exists (mkTime (ms / 1000) (ms mod 1000 * 1000000)).
  split.
  - rewrite <- (unix_instant ms Hms), <- (time_Unix_whole eventTimestamp).
    apply parseGatewayMessage_ok
      with (ets := strconv.FormatInt eventTimestamp) (gts := strconv.FormatInt ms);
      rewrite ?Hvals; unfold Publish_message; cbn [Values];
      rewrite ?Hstamp; try (by simplify_map_eq);
      apply ParseInt_FormatInt; assumption.
  - split; [ apply list_byte_of_string_of_list_byte | ].
    split; [ reflexivity | ].
    split; [ exact Hnano | ].
    rewrite Hnano. lia.
Qed.

(** * The dispatch wrappers *)

Ltac run_wrapper fn :=
  intros;
  unfold dispatch, absorbed, world_at_return, world_at_call, dispatch_ctxer,
    dispatch_Context, event_logger, stream_logger, now;
  cbv [bind ret time_Now time_Since Msg emit cancel context_WithTimeout call
       With];
  cbn [wall trace ctx_Context ctx_e];
  destruct (parseGatewayMessage _) as [perr | [[[eid et] gt] d]];
    [ rewrite <- ?app_assoc; reflexivity | ];
  destruct (json.Unmarshal _ _) as [uerr | p];
    [ rewrite <- ?app_assoc; reflexivity | ];
  rewrite <- ?app_assoc; cbn [app];
  match goal with
  | |- context [fn ?c ?q ?w0] =>
      let sr := fresh "shouldRetry" in
      let dis := fresh "discarded" in
      let e := fresh "e" in
      let w' := fresh "w'" in
      destruct (fn c q w0) as [[[sr dis] [e |]] w'];
      [ destruct dis; [ | destruct sr ] | ]
  end;
  cbn [wall trace classify outcome_error outcome_log];
  rewrite <- ?app_assoc; reflexivity.

Section Dispatch.

Context {SlackClient SlackUser ChannelSvc : Type}.
Context {MessageEvent TeamJoinEvent MemberJoinedChannelEvent : Type}.
Variable decode_MessageEvent : list Byte.byte -> error + MessageEvent.
Variable decode_TeamJoinEvent : list Byte.byte -> error + TeamJoinEvent.
Variable decode_MemberJoinedChannelEvent :
  list Byte.byte -> error + MemberJoinedChannelEvent.

Local Abbreviation HandlerOf T := (Handler SlackClient SlackUser ChannelSvc T).

Variables (baseLogger : Logger) (sc : SlackClient) (botUser : SlackUser)
          (csvc : ChannelSvc) (timeout : Duration).

(** Each factory runs the one pipeline, under its own label and with
    its own payload decoder. *)

Lemma messageHandlerFactory_dispatch (fn : HandlerOf MessageEvent) m w :
  messageHandlerFactory decode_MessageEvent baseLogger sc botUser csvc
                        timeout fn m w
  = dispatch "message" decode_MessageEvent baseLogger sc botUser csvc
             timeout fn m w.
Proof. unfold messageHandlerFactory. run_wrapper fn. Qed.

Lemma teamJoinHandlerFactory_dispatch (fn : HandlerOf TeamJoinEvent) m w :
  teamJoinHandlerFactory decode_TeamJoinEvent baseLogger sc botUser csvc
                         timeout fn m w
  = dispatch "team_join" decode_TeamJoinEvent baseLogger sc botUser csvc
             timeout fn m w.
Proof. unfold teamJoinHandlerFactory. run_wrapper fn. Qed.

Lemma channelJoinHandlerFactory_dispatch
    (fn : HandlerOf MemberJoinedChannelEvent) m w :
  channelJoinHandlerFactory decode_MemberJoinedChannelEvent baseLogger sc
                            botUser csvc timeout fn m w
  = dispatch "channel_join" decode_MemberJoinedChannelEvent baseLogger sc
             botUser csvc timeout fn m w.
Proof. unfold channelJoinHandlerFactory. run_wrapper fn. Qed.

(** What one run of the pipeline does, by the stage it reaches. *)

Lemma dispatch_envelope_error {T} label (decode : list Byte.byte -> error + T)
    (fn : HandlerOf T) m w err :
  parseGatewayMessage m = inl err ->
  dispatch label decode baseLogger sc botUser csvc timeout fn m w
  = absorbed (stream_logger label baseLogger m) err
             "failed to parse message from gateway" w.
Proof. intros H. unfold dispatch. now rewrite H. Qed.

Lemma dispatch_payload_error {T} label (decode : list Byte.byte -> error + T)
    (fn : HandlerOf T) m w eid et gt d err :
  parseGatewayMessage m = inr (eid, et, gt, d) ->
  json.Unmarshal decode (list_byte_of_string d) = inl err ->
  dispatch label decode baseLogger sc botUser csvc timeout fn m w
  = absorbed (event_logger label baseLogger m eid et gt) err
             "failed to parse message JSON" w.
Proof. intros H1 H2. unfold dispatch. now rewrite H1, H2. Qed.

Lemma dispatch_handled {T} label (decode : list Byte.byte -> error + T)
    (fn : HandlerOf T) m w eid et gt d p shouldRetry discarded err w' :
  parseGatewayMessage m = inr (eid, et, gt, d) ->
  json.Unmarshal decode (list_byte_of_string d) = inr p ->
  fn (dispatch_ctxer label baseLogger sc botUser csvc timeout m eid et gt w)
     p (world_at_call timeout m eid et gt w)
  = ((shouldRetry, discarded, err), w') ->
  dispatch label decode baseLogger sc botUser csvc timeout fn m w
  = (outcome_error (classify shouldRetry discarded err),
     world_at_return (event_logger label baseLogger m eid et gt) timeout
                     w w' (classify shouldRetry discarded err)).
Proof. intros H1 H2 H3. unfold dispatch. now rewrite H1, H2, H3. Qed.

Lemma outcome_error_retry shouldRetry discarded err :
  outcome_error (classify shouldRetry discarded err)
  = match err with
    | Some e => if discarded then None else if shouldRetry then Some e else None
    | None => None
    end.
Proof. destruct err, discarded, shouldRetry; reflexivity. Qed.

(** C1: when envelope and payload decode, the wrapper returns an error
    to the transport exactly when the handler returned a non-nil error
    with discarded false and shouldRetry true, and then it is the
    handler's own error; in every other case it returns nil and the
    message is acknowledged.  Only the returned triple counts: another
    run whose handler returns the same triple in a different world, past
    the deadline or not, returns the same. *)
Theorem C1_retry_contract (fn : HandlerOf MessageEvent) m w eid et gt d sm
    shouldRetry discarded err w' :
  parseGatewayMessage m = inr (eid, et, gt, d) ->
  json.Unmarshal decode_MessageEvent (list_byte_of_string d) = inr sm ->
  fn (dispatch_ctxer "message" baseLogger sc botUser csvc timeout m eid et gt w)
     sm (world_at_call timeout m eid et gt w)
  = ((shouldRetry, discarded, err), w') ->
  let r := fst (messageHandlerFactory decode_MessageEvent baseLogger sc
                  botUser csvc timeout fn m w) in
  (r <> None <-> err <> None /\ discarded = false /\ shouldRetry = true)
  /\ (r <> None -> r = err)
  /\ (err = None -> r = None)
  /\ (discarded = true -> r = None)
  /\ (shouldRetry = false -> r = None)
  /\ (acknowledged r = true <->
       ~ (err <> None /\ discarded = false /\ shouldRetry = true))
  /\ (forall (fn2 : HandlerOf MessageEvent) w2,
        fn2 (dispatch_ctxer "message" baseLogger sc botUser csvc timeout
                            m eid et gt w)
            sm (world_at_call timeout m eid et gt w)
        = ((shouldRetry, discarded, err), w2) ->
        fst (messageHandlerFactory decode_MessageEvent baseLogger sc
               botUser csvc timeout fn2 m w) = r).
Proof.
  intros Hp Hu Hf r.
  assert (Hr : r = match err with
                   | Some e =>
                       if discarded then None
                       else if shouldRetry then Some e else None
                   | None => None
                   end).
  { subst r.
    rewrite messageHandlerFactory_dispatch,
      (dispatch_handled _ _ _ _ _ _ _ _ _ _ _ _ _ _ Hp Hu Hf).
    cbn [fst]. apply outcome_error_retry. }
  assert (Hsame : forall (fn2 : HandlerOf MessageEvent) w2,
             fn2 (dispatch_ctxer "message" baseLogger sc botUser csvc
                                 timeout m eid et gt w)
                 sm (world_at_call timeout m eid et gt w)
             = ((shouldRetry, discarded, err), w2) ->
             fst (messageHandlerFactory decode_MessageEvent baseLogger sc
                    botUser csvc timeout fn2 m w) = r).
  { intros fn2 w2 Hf2. rewrite Hr.
    rewrite messageHandlerFactory_dispatch,
      (dispatch_handled _ _ _ _ _ _ _ _ _ _ _ _ _ _ Hp Hu Hf2).
    cbn [fst]. apply outcome_error_retry. }
  clearbody r.
  repeat match goal with |- _ /\ _ => split end;
    try exact Hsame;
    subst r; destruct err, discarded, shouldRetry; cbn [acknowledged];
    intuition congruence.
Qed.

Lemma dispatch_cancel_order {T} label (decode : list Byte.byte -> error + T)
    (fn : HandlerOf T) m w eid et gt d p shouldRetry discarded err w' :
  parseGatewayMessage m = inr (eid, et, gt, d) ->
  json.Unmarshal decode (list_byte_of_string d) = inr p ->
  fn (dispatch_ctxer label baseLogger sc botUser csvc timeout m eid et gt w)
     p (world_at_call timeout m eid et gt w)
  = ((shouldRetry, discarded, err), w') ->
  cancel_precedes_outcome (event_logger label baseLogger m eid et gt)
    timeout w w' shouldRetry discarded err
    (dispatch label decode baseLogger sc botUser csvc timeout fn m w).
Proof.
  intros Hp Hu Hf.
  rewrite (dispatch_handled _ _ _ _ _ _ _ _ _ _ _ _ _ _ Hp Hu Hf).
  eexists. split; [ reflexivity | ]. split; reflexivity.
Qed.

(** C8: in every dispatch that reaches the handler, the context is
    created with the deadline now + timeout before the call, and it is
    cancelled as the first thing after the handler returns, on the
    success, discarded, retryable and non-retryable paths alike; the
    outcome is logged and the return value fixed only after that. *)
Theorem C8_cancel_on_return m w eid et gt d shouldRetry discarded err :
  parseGatewayMessage m = inr (eid, et, gt, d) ->
  let ctx := dispatch_Context timeout w in
  deadline ctx = Time_Add (now w) timeout
  /\ trace (world_at_call timeout m eid et gt w)
     = (trace w ++ [EWithTimeout ctx;
                    ECall ctx (mkEventMetadata eid et gt (ID m))])%list
  /\ (forall (fn : HandlerOf MessageEvent) p w',
        json.Unmarshal decode_MessageEvent (list_byte_of_string d) = inr p ->
        fn (dispatch_ctxer "message" baseLogger sc botUser csvc timeout
                           m eid et gt w)
           p (world_at_call timeout m eid et gt w)
        = ((shouldRetry, discarded, err), w') ->
        cancel_precedes_outcome (event_logger "message" baseLogger m eid et gt)
          timeout w w' shouldRetry discarded err
          (messageHandlerFactory decode_MessageEvent baseLogger sc botUser
             csvc timeout fn m w))
  /\ (forall (fn : HandlerOf TeamJoinEvent) p w',
        json.Unmarshal decode_TeamJoinEvent (list_byte_of_string d) = inr p ->
        fn (dispatch_ctxer "team_join" baseLogger sc botUser csvc timeout
                           m eid et gt w)
           p (world_at_call timeout m eid et gt w)
        = ((shouldRetry, discarded, err), w') ->
        cancel_precedes_outcome
          (event_logger "team_join" baseLogger m eid et gt)
          timeout w w' shouldRetry discarded err
          (teamJoinHandlerFactory decode_TeamJoinEvent baseLogger sc botUser
             csvc timeout fn m w))
  /\ (forall (fn : HandlerOf MemberJoinedChannelEvent) p w',
        json.Unmarshal decode_MemberJoinedChannelEvent
                       (list_byte_of_string d) = inr p ->
        fn (dispatch_ctxer "channel_join" baseLogger sc botUser csvc timeout
                           m eid et gt w)
           p (world_at_call timeout m eid et gt w)
        = ((shouldRetry, discarded, err), w') ->
        cancel_precedes_outcome
          (event_logger "channel_join" baseLogger m eid et gt)
          timeout w w' shouldRetry discarded err
          (channelJoinHandlerFactory decode_MemberJoinedChannelEvent
             baseLogger sc botUser csvc timeout fn m w)).
Proof.
  intros Hp ctx. split; [ reflexivity | ]. split; [ reflexivity | ].
  split; [ | split ]; intros fn p w' Hu Hf.
  - rewrite messageHandlerFactory_dispatch.
    eapply dispatch_cancel_order; eassumption.
  - rewrite teamJoinHandlerFactory_dispatch.
    eapply dispatch_cancel_order; eassumption.
  - rewrite channelJoinHandlerFactory_dispatch.
    eapply dispatch_cancel_order; eassumption.
Qed.

Lemma absorbed_shape logger err text w :
  exists ev,
    lvl ev = ErrorLevel /\ In (FErr err) (fields ev) /\ msg ev = text
    /\ absorbed logger err text w
       = (None, mkWorld (wall w) (trace w ++ [ELog ev])%list).
Proof.
  eexists. split; [ | split; [ | split ] ]; [ | | | reflexivity ];
    cbn [lvl fields msg]; [ reflexivity | | reflexivity ].
  apply in_or_app. right. left. reflexivity.
Qed.

Lemma dispatch_decode_failure {T} label (decode : list Byte.byte -> error + T)
    m w f :
  decode_fails decode m f ->
  exists ev,
    lvl ev = ErrorLevel /\ In (FErr (failure_error f)) (fields ev)
    /\ forall fn : HandlerOf T,
        dispatch label decode baseLogger sc botUser csvc timeout fn m w
        = (None, mkWorld (wall w) (trace w ++ [ELog ev])%list).
Proof.
  destruct f as [err | eid et gt d err]; cbn [decode_fails failure_error].
  - intros Hp.
    destruct (absorbed_shape (stream_logger label baseLogger m) err
                "failed to parse message from gateway" w)
      as (ev & Hl & Hi & _ & Hev).
    exists ev. split; [ exact Hl | ]. split; [ exact Hi | ].
    intros fn. rewrite <- Hev. now apply dispatch_envelope_error.
  - intros [Hp Hu].
    destruct (absorbed_shape (event_logger label baseLogger m eid et gt) err
                "failed to parse message JSON" w)
      as (ev & Hl & Hi & _ & Hev).
    exists ev. split; [ exact Hl | ]. split; [ exact Hi | ].
    intros fn. rewrite <- Hev. eapply dispatch_payload_error; eassumption.
Qed.

(** The envelope defects that make decoding fail. *)
Lemma parseGatewayMessage_not_string (m : Message) k v :
  In k decoded_fields ->
  Values m !! k = Some v ->
  (forall s, v <> IString s) ->
  exists err, parseGatewayMessage m = inl err.
Proof.
  intros Hk Hv Hns. unfold parseGatewayMessage.
  assert (Hbad : forall x, v = x ->
             match x with IString _ => False | _ => True end).
  { intros [s | | |] ->; try exact Logic.I. exact (Hns s eq_refl). }
  cbn [decoded_fields In] in Hk.
  destruct (Values m !! "event_ts") as [eti |] eqn:E1; [ | eauto ].
  destruct (Values m !! "gateway_ts") as [gti |] eqn:E2; [ | eauto ].
  destruct (Values m !! "event_id") as [eidi |] eqn:E3; [ | eauto ].
  destruct (Values m !! "json") as [di |] eqn:E4; [ | eauto ].
  destruct di as [d | | |]; eauto.
  destruct eidi as [eid | | |]; eauto.
  destruct eti as [ets | | |]; eauto.
  destruct gti as [gts | | |]; eauto.
  exfalso.
  destruct Hk as [<- | [<- | [<- | [<- | []]]]];
    match goal with
    | H : Values m !! _ = Some (IString ?s) |- _ =>
        rewrite H in Hv; injection Hv as <-; exact (Hns s eq_refl)
    end.
Qed.

Lemma parseGatewayMessage_not_numeral (m : Message) k s err :
  k = "event_ts" \/ k = "gateway_ts" ->
  Values m !! k = Some (IString s) ->
  strconv.ParseInt s = inl err ->
  exists err', parseGatewayMessage m = inl err'.
Proof.
  intros Hk Hv Hs. unfold parseGatewayMessage.
  destruct (Values m !! "event_ts") as [eti |] eqn:E1; [ | eauto ].
  destruct (Values m !! "gateway_ts") as [gti |] eqn:E2; [ | eauto ].
  destruct (Values m !! "event_id") as [eidi |] eqn:E3; [ | eauto ].
  destruct (Values m !! "json") as [di |] eqn:E4; [ | eauto ].
  destruct di as [d | | |]; eauto.
  destruct eidi as [eid | | |]; eauto.
  destruct eti as [ets | | |]; eauto.
  destruct gti as [gts | | |]; eauto.
  destruct Hk as [-> | ->].
  - rewrite E1 in Hv. injection Hv as ->. rewrite Hs. eauto.
  - rewrite E2 in Hv. injection Hv as ->. rewrite Hs.
    destruct (strconv.ParseInt ets); eauto.
Qed.

Lemma parseGatewayMessage_missing (m : Message) k :
  In k decoded_fields ->
  Values m !! k = None ->
  exists k',
    In k' decoded_fields /\ Values m !! k' = None
    /\ parseGatewayMessage m = inl (not_present k')
    /\ ((forall j, In j decoded_fields -> j <> k -> Values m !! j <> None) ->
        k' = k).
Proof.
  intros Hk Hnone. unfold parseGatewayMessage.
  assert (Hpick : forall k',
             In k' decoded_fields -> Values m !! k' = None ->
             (forall j, In j decoded_fields -> j <> k -> Values m !! j <> None) ->
             k' = k).
  { intros k' Hin Hn Hall. destruct (string_dec k' k) as [E | N]; [ exact E | ].
    exfalso. exact (Hall k' Hin N Hn). }
  assert (Hfound : forall k',
             In k' decoded_fields -> Values m !! k' = None ->
             exists k'',
               In k'' decoded_fields /\ Values m !! k'' = None
               /\ (inl (not_present k') : error + (string * Time * Time * string))
                  = inl (not_present k'')
               /\ ((forall j, In j decoded_fields -> j <> k ->
                             Values m !! j <> None) -> k'' = k)).
  { intros k' Hin Hn. exists k'. repeat split; auto. }
  cbn [decoded_fields In] in Hk.
  destruct (Values m !! "event_ts") as [eti |] eqn:E1;
    [ | apply (Hfound "event_ts"); [ cbn; auto | assumption ] ].
  destruct (Values m !! "gateway_ts") as [gti |] eqn:E2;
    [ | apply (Hfound "gateway_ts"); [ cbn; auto | assumption ] ].
  destruct (Values m !! "event_id") as [eidi |] eqn:E3;
    [ | apply (Hfound "event_id"); [ cbn; auto | assumption ] ].
  destruct (Values m !! "json") as [di |] eqn:E4;
    [ | apply (Hfound "json"); [ cbn; auto 6 | assumption ] ].
  exfalso.
  destruct Hk as [<- | [<- | [<- | [<- | []]]]]; congruence.
Qed.

(** C3: a delivered message whose envelope does not decode, or whose
    payload does not unmarshal into the domain type, is logged at error
    level and nothing else happens: the handler is not invoked and the
    wrapper returns nil, so the message is acknowledged.  A field that
    is absent or not a string, or a timestamp that is no base-10
    numeral, is such an envelope failure. *)
Theorem C3_undecodable_absorbed m w f :
  (decode_fails decode_MessageEvent m f ->
   exists ev,
     lvl ev = ErrorLevel /\ In (FErr (failure_error f)) (fields ev)
     /\ forall fn : HandlerOf MessageEvent,
         messageHandlerFactory decode_MessageEvent baseLogger sc botUser
                               csvc timeout fn m w
         = (None, mkWorld (wall w) (trace w ++ [ELog ev])%list))
  /\ (decode_fails decode_TeamJoinEvent m f ->
      exists ev,
        lvl ev = ErrorLevel /\ In (FErr (failure_error f)) (fields ev)
        /\ forall fn : HandlerOf TeamJoinEvent,
            teamJoinHandlerFactory decode_TeamJoinEvent baseLogger sc
                                   botUser csvc timeout fn m w
            = (None, mkWorld (wall w) (trace w ++ [ELog ev])%list))
  /\ (decode_fails decode_MemberJoinedChannelEvent m f ->
      exists ev,
        lvl ev = ErrorLevel /\ In (FErr (failure_error f)) (fields ev)
        /\ forall fn : HandlerOf MemberJoinedChannelEvent,
            channelJoinHandlerFactory decode_MemberJoinedChannelEvent
                                      baseLogger sc botUser csvc timeout fn m w
            = (None, mkWorld (wall w) (trace w ++ [ELog ev])%list))
  /\ acknowledged None = true
  /\ (forall k, In k decoded_fields -> Values m !! k = None ->
      exists err, parseGatewayMessage m = inl err)
  /\ (forall k v, In k decoded_fields -> Values m !! k = Some v ->
      (forall s, v <> IString s) ->
      exists err, parseGatewayMessage m = inl err)
  /\ (forall k s err, k = "event_ts" \/ k = "gateway_ts" ->
      Values m !! k = Some (IString s) ->
      strconv.ParseInt s = inl err ->
      exists err', parseGatewayMessage m = inl err').
Proof.
  repeat match goal with |- _ /\ _ => split end.
  - intros Hf.
    destruct (dispatch_decode_failure "message" decode_MessageEvent m w f Hf)
      as (ev & Hl & Hi & Hev).
    exists ev. split; [ exact Hl | ]. split; [ exact Hi | ].
    intros fn. rewrite messageHandlerFactory_dispatch. apply Hev.
  - intros Hf.
    destruct (dispatch_decode_failure "team_join" decode_TeamJoinEvent m w f Hf)
      as (ev & Hl & Hi & Hev).
    exists ev. split; [ exact Hl | ]. split; [ exact Hi | ].
    intros fn. rewrite teamJoinHandlerFactory_dispatch. apply Hev.
  - intros Hf.
    destruct (dispatch_decode_failure "channel_join"
                decode_MemberJoinedChannelEvent m w f Hf)
      as (ev & Hl & Hi & Hev).
    exists ev. split; [ exact Hl | ]. split; [ exact Hi | ].
    intros fn. rewrite channelJoinHandlerFactory_dispatch. apply Hev.
  - reflexivity.
  - intros k Hk Hn.
    destruct (parseGatewayMessage_missing m k Hk Hn) as (k' & _ & _ & H & _).
    eauto.
  - apply parseGatewayMessage_not_string.
  - apply parseGatewayMessage_not_numeral.
Qed.


(** C7: the message, team-join and channel-join wrappers are one
    pipeline run under three labels with three payload decoders.  On the
    same delivered message they decode the envelope alike, hand their
    handlers the same context (deadline and event metadata) in the same
    world, and when the handlers return the same triple they classify
    it alike: the same cancellation, the same outcome logged under the
    wrapper's own label, the same value returned to the transport. *)
Theorem C7_one_pipeline (f1 : HandlerOf MessageEvent)
    (f2 : HandlerOf TeamJoinEvent) (f3 : HandlerOf MemberJoinedChannelEvent)
    m w :
  let r1 := messageHandlerFactory decode_MessageEvent baseLogger sc botUser
              csvc timeout f1 m w in
  let r2 := teamJoinHandlerFactory decode_TeamJoinEvent baseLogger sc botUser
              csvc timeout f2 m w in
  let r3 := channelJoinHandlerFactory decode_MemberJoinedChannelEvent
              baseLogger sc botUser csvc timeout f3 m w in
  r1 = dispatch "message" decode_MessageEvent baseLogger sc botUser csvc
                timeout f1 m w
  /\ r2 = dispatch "team_join" decode_TeamJoinEvent baseLogger sc botUser
                   csvc timeout f2 m w
  /\ r3 = dispatch "channel_join" decode_MemberJoinedChannelEvent baseLogger
                   sc botUser csvc timeout f3 m w
  /\ (forall err, parseGatewayMessage m = inl err ->
      r1 = absorbed (stream_logger "message" baseLogger m) err
                    "failed to parse message from gateway" w
      /\ r2 = absorbed (stream_logger "team_join" baseLogger m) err
                       "failed to parse message from gateway" w
      /\ r3 = absorbed (stream_logger "channel_join" baseLogger m) err
                       "failed to parse message from gateway" w)
  /\ (forall eid et gt d p1 p2 p3 shouldRetry discarded err w1 w2 w3,
      parseGatewayMessage m = inr (eid, et, gt, d) ->
      json.Unmarshal decode_MessageEvent (list_byte_of_string d) = inr p1 ->
      json.Unmarshal decode_TeamJoinEvent (list_byte_of_string d) = inr p2 ->
      json.Unmarshal decode_MemberJoinedChannelEvent (list_byte_of_string d)
      = inr p3 ->
      let c1 := dispatch_ctxer "message" baseLogger sc botUser csvc timeout
                               m eid et gt w in
      let c2 := dispatch_ctxer "team_join" baseLogger sc botUser csvc timeout
                               m eid et gt w in
      let c3 := dispatch_ctxer "channel_join" baseLogger sc botUser csvc
                               timeout m eid et gt w in
      f1 c1 p1 (world_at_call timeout m eid et gt w)
      = ((shouldRetry, discarded, err), w1) ->
      f2 c2 p2 (world_at_call timeout m eid et gt w)
      = ((shouldRetry, discarded, err), w2) ->
      f3 c3 p3 (world_at_call timeout m eid et gt w)
      = ((shouldRetry, discarded, err), w3) ->
      ctx_Context c1 = ctx_Context c2 /\ ctx_Context c2 = ctx_Context c3
      /\ deadline (ctx_Context c1) = Time_Add (now w) timeout
      /\ ctx_e c1 = ctx_e c2 /\ ctx_e c2 = ctx_e c3
      /\ fst r1 = fst r2 /\ fst r2 = fst r3
      /\ acknowledged (fst r1) = acknowledged (fst r2)
      /\ acknowledged (fst r2) = acknowledged (fst r3)
      /\ cancel_precedes_outcome
           (event_logger "message" baseLogger m eid et gt)
           timeout w w1 shouldRetry discarded err r1
      /\ cancel_precedes_outcome
           (event_logger "team_join" baseLogger m eid et gt)
           timeout w w2 shouldRetry discarded err r2
      /\ cancel_precedes_outcome
           (event_logger "channel_join" baseLogger m eid et gt)
           timeout w w3 shouldRetry discarded err r3).
Proof.
  intros r1 r2 r3.
  assert (E1 := messageHandlerFactory_dispatch f1 m w).
  assert (E2 := teamJoinHandlerFactory_dispatch f2 m w).
  assert (E3 := channelJoinHandlerFactory_dispatch f3 m w).
  fold r1 in E1. fold r2 in E2. fold r3 in E3. clearbody r1 r2 r3.
  split; [ exact E1 | ]. split; [ exact E2 | ]. split; [ exact E3 | ].
  split.
  - intros err Hp. rewrite E1, E2, E3.
    repeat split; now apply dispatch_envelope_error.
  - intros eid et gt d p1 p2 p3 shouldRetry discarded err w1 w2 w3
           Hp U1 U2 U3 c1 c2 c3 H1 H2 H3.
    pose proof (dispatch_cancel_order _ _ _ _ _ _ _ _ _ _ _ _ _ _ Hp U1 H1) as K1.
    pose proof (dispatch_cancel_order _ _ _ _ _ _ _ _ _ _ _ _ _ _ Hp U2 H2) as K2.
    pose proof (dispatch_cancel_order _ _ _ _ _ _ _ _ _ _ _ _ _ _ Hp U3 H3) as K3.
    rewrite <- E1 in K1. rewrite <- E2 in K2. rewrite <- E3 in K3.
    assert (F1 : fst r1 = outcome_error (classify shouldRetry discarded err))
      by (destruct K1 as (? & _ & _ & K); exact K).
    assert (F2 : fst r2 = outcome_error (classify shouldRetry discarded err))
      by (destruct K2 as (? & _ & _ & K); exact K).
    assert (F3 : fst r3 = outcome_error (classify shouldRetry discarded err))
      by (destruct K3 as (? & _ & _ & K); exact K).
    repeat match goal with |- _ /\ _ => split end;
      try reflexivity; try assumption; congruence.
Qed.

(** C9: a delivered message can pass both decode stages and still reach
    the handler with a nil domain value.  With the payload [null] the
    envelope decodes, [json.Unmarshal] succeeds leaving the pointer nil,
    and the message and team-join wrappers call their handler with that
    nil pointer instead of absorbing the message; a handler that reports
    the nil payload as a retryable error gets its error returned. *)
Theorem C9_null_payload_reaches_handler :
  exists m eid et gt d,
    parseGatewayMessage m = inr (eid, et, gt, d)
    /\ json.Unmarshal decode_MessageEvent (list_byte_of_string d) = inr None
    /\ json.Unmarshal decode_TeamJoinEvent (list_byte_of_string d) = inr None
    /\ (forall (fn : HandlerOf MessageEvent) w,
          messageHandlerFactory decode_MessageEvent baseLogger sc botUser
                                csvc timeout fn m w
          = let '((shouldRetry, discarded, err), w') :=
              fn (dispatch_ctxer "message" baseLogger sc botUser csvc
                                 timeout m eid et gt w)
                 None (world_at_call timeout m eid et gt w) in
            (outcome_error (classify shouldRetry discarded err),
             world_at_return (event_logger "message" baseLogger m eid et gt)
                             timeout w w' (classify shouldRetry discarded err)))
    /\ (forall (fn : HandlerOf TeamJoinEvent) w,
          teamJoinHandlerFactory decode_TeamJoinEvent baseLogger sc botUser
                                 csvc timeout fn m w
          = let '((shouldRetry, discarded, err), w') :=
              fn (dispatch_ctxer "team_join" baseLogger sc botUser csvc
                                 timeout m eid et gt w)
                 None (world_at_call timeout m eid et gt w) in
            (outcome_error (classify shouldRetry discarded err),
             world_at_return (event_logger "team_join" baseLogger m eid et gt)
                             timeout w w' (classify shouldRetry discarded err)))
    /\ (forall w,
          fst (messageHandlerFactory decode_MessageEvent baseLogger sc
                 botUser csvc timeout handler_nil_probe m w)
          = Some (errors_New "nil payload")).
Proof.
  exists null_envelope, "e3", (mkTime 1700000000 0),
    (mkTime 1700000000 500000000), "null".
  split; [ reflexivity | ]. split; [ reflexivity | ]. split; [ reflexivity | ].
  split; [ | split ].
  - intros fn w. rewrite messageHandlerFactory_dispatch. reflexivity.
  - intros fn w. rewrite teamJoinHandlerFactory_dispatch. reflexivity.
  - intros w. rewrite messageHandlerFactory_dispatch. reflexivity.
Qed.

(** C6: the mapping from event to stream is fixed and total over the
    named events.  The public-channel message event has a stream of its
    own; the app-home, group, IM and multi-party-IM message events all
    share the private-message stream; team-join and channel-join each
    have their own; the four streams are distinct.  [Publish] appends to
    the stream that is the event's name, and the handler registered for
    private messages is bound to the stream the private events are
    published to, and to no other. *)
Theorem C6_event_streams :
  SlackMessageChannel = "slack_message_public"
  /\ SlackMessageAppHome = "slack_message_private"
  /\ SlackMessageGroup = "slack_message_private"
  /\ SlackMessageIM = "slack_message_private"
  /\ SlackMessageMPIM = "slack_message_private"
  /\ SlackTeamJoin = "slack_team_join"
  /\ SlackChannelJoin = "slack_channel_join"
  /\ NoDup [slackPublicMessage; slackPrivateMessage; slackTeamJoin;
            slackChannelJoin]
  /\ (forall e, In e named_events ->
      In e [slackPublicMessage; slackPrivateMessage; slackTeamJoin;
            slackChannelJoin])
  /\ (forall clock e eventTimestamp eventID requestID jsonData,
      Stream (Publish_message clock e eventTimestamp eventID requestID
                              jsonData) = e)
  /\ (forall (i : I SlackClient SlackUser ChannelSvc) t
             (fn : HandlerOf MessageEvent) e clock eventTimestamp eventID
             requestID jsonData,
      In e [SlackMessageAppHome; SlackMessageGroup; SlackMessageIM;
            SlackMessageMPIM] ->
      rc_fn <$> (i_c (RegisterPrivateMessagesHandler decode_MessageEvent i t fn)
                   !! Stream (Publish_message clock e eventTimestamp eventID
                                              requestID jsonData))
      = Some (messageHandlerFactory decode_MessageEvent (i_l i) (i_sc i)
                                    (i_self i) (i_cs i) t fn))
  /\ (forall (i : I SlackClient SlackUser ChannelSvc) t
             (fn : HandlerOf MessageEvent) s,
      s <> slackPrivateMessage ->
      i_c (RegisterPrivateMessagesHandler decode_MessageEvent i t fn) !! s
      = i_c i !! s).
Proof using Type.
  repeat match goal with |- _ /\ _ => split end; try reflexivity.
  - apply (bool_decide_unpack _). vm_compute. exact Logic.I.
  - intros e He. cbn in He |- *.
    repeat (destruct He as [<- | He]; [ auto 6 | ]). destruct He.
  - intros i t fn e clock ts eid rid jd He. cbn [Publish_message Stream].
    assert (e = slackPrivateMessage) as ->
      by (cbn in He; repeat (destruct He as [<- | He]; [ reflexivity | ]);
          destruct He).
    unfold RegisterPrivateMessagesHandler, registerMessageHandler,
      with_consumers, RegisterWithLastID.
    cbn [i_c]. rewrite lookup_insert_eq. reflexivity.
  - intros i t fn s Hs.
    unfold RegisterPrivateMessagesHandler, registerMessageHandler,
      with_consumers, RegisterWithLastID.
    cbn [i_c]. rewrite lookup_insert_ne by congruence. reflexivity.
Qed.

End Dispatch.

(** * Further properties of the envelope codec *)

(** X1: decoding succeeds exactly on the envelopes whose four decoded
    fields are strings and whose two timestamps are base-10 int64
    numerals, and then the result is built from those fields alone. *)
Theorem X1_parse_succeeds_iff (m : Message) eid et gt d :
  parseGatewayMessage m = inr (eid, et, gt, d)
  <-> exists ets gts e g,
        Values m !! "event_ts" = Some (IString ets)
        /\ Values m !! "gateway_ts" = Some (IString gts)
        /\ Values m !! "event_id" = Some (IString eid)
        /\ Values m !! "json" = Some (IString d)
        /\ strconv.ParseInt ets = inr e
        /\ strconv.ParseInt gts = inr g
        /\ et = time_Unix e 0
        /\ gt = time_Unix (Z.quot g 1000) (Z.rem g 1000 * 1000000).
Proof.
  split.
  - unfold parseGatewayMessage.
    destruct (Values m !! "event_ts") as [eti |] eqn:He; [ | discriminate ].
    destruct (Values m !! "gateway_ts") as [gti |] eqn:Hg; [ | discriminate ].
    destruct (Values m !! "event_id") as [eidi |] eqn:Hi; [ | discriminate ].
    destruct (Values m !! "json") as [di |] eqn:Hd; [ | discriminate ].
    destruct di as [d' | | |]; try discriminate.
    destruct eidi as [eid' | | |]; try discriminate.
    destruct eti as [ets | | |]; try discriminate.
    destruct gti as [gts | | |]; try discriminate.
    destruct (strconv.ParseInt ets) as [? | e] eqn:Pe; [ discriminate | ].
    destruct (strconv.ParseInt gts) as [? | g] eqn:Pg; [ discriminate | ].
    rewrite (unix_exact g (ParseInt_in_range _ _ Pg)).
    intros [= <- <- <- <-].
    exists ets, gts, e, g. repeat split; solve [ reflexivity | assumption ].
  - intros (ets & gts & e & g & He & Hg & Hi & Hd & Pe & Pg & -> & ->).
    exact (parseGatewayMessage_ok m ets gts eid d e g He Hg Hi Hd Pe Pg).
Qed.

(** X2: decoding looks at nothing but the four decoded fields: two
    messages that agree on them decode alike, whatever their transport
    ids, streams, request ids or further fields. *)
Theorem X2_parse_reads_four_fields (m m' : Message) :
  (forall k, In k decoded_fields -> Values m !! k = Values m' !! k) ->
  parseGatewayMessage m = parseGatewayMessage m'.
Proof.
  intros H. unfold parseGatewayMessage.
  rewrite <- (H "event_ts"), <- (H "gateway_ts"), <- (H "event_id"),
    <- (H "json") by (cbn; auto 6).
  reflexivity.
Qed.

(** X3: the order of the checks when all four fields are present.  A
    payload that is not a string is reported first, then an event id, an
    event_ts and a gateway_ts that is not a string; only then are the
    numerals parsed, event_ts before gateway_ts, and the error names the
    offending text and wraps the error of [strconv.ParseInt]. *)
Theorem X3_parse_check_order (m : Message) eti gti eidi di :
  Values m !! "event_ts" = Some eti ->
  Values m !! "gateway_ts" = Some gti ->
  Values m !! "event_id" = Some eidi ->
  Values m !! "json" = Some di ->
  ((forall s, di <> IString s) ->
   parseGatewayMessage m = inl (errors_New "json data is not a string"))
  /\ (forall d, di = IString d -> (forall s, eidi <> IString s) ->
      parseGatewayMessage m = inl (errors_New "event_id data is not a string"))
  /\ (forall d eid, di = IString d -> eidi = IString eid ->
      (forall s, eti <> IString s) ->
      parseGatewayMessage m = inl (errors_New "event_ts is not a string"))
  /\ (forall d eid ets, di = IString d -> eidi = IString eid ->
      eti = IString ets -> (forall s, gti <> IString s) ->
      parseGatewayMessage m = inl (errors_New "gateway_ts is not a string"))
  /\ (forall d eid ets gts err, di = IString d -> eidi = IString eid ->
      eti = IString ets -> gti = IString gts ->
      strconv.ParseInt ets = inl err ->
      parseGatewayMessage m
      = inl (fmt_Errorf "failed to parse event_ts %q: %w" ets err))
  /\ (forall d eid ets gts e err, di = IString d -> eidi = IString eid ->
      eti = IString ets -> gti = IString gts ->
      strconv.ParseInt ets = inr e -> strconv.ParseInt gts = inl err ->
      parseGatewayMessage m
      = inl (fmt_Errorf "failed to parse gateway_ts %q: %w" gts err)).
Proof.
  intros He Hg Hi Hd. unfold parseGatewayMessage. rewrite He, Hg, Hi, Hd.
  repeat match goal with |- _ /\ _ => split end.
  - intros Hn. destruct di; try reflexivity. exfalso. exact (Hn _ eq_refl).
  - intros d -> Hn. destruct eidi; try reflexivity.
    exfalso. exact (Hn _ eq_refl).
  - intros d eid -> -> Hn. destruct eti; try reflexivity.
    exfalso. exact (Hn _ eq_refl).
  - intros d eid ets -> -> -> Hn. destruct gti; try reflexivity.
    exfalso. exact (Hn _ eq_refl).
  - intros d eid ets gts err -> -> -> -> Pe. now rewrite Pe.
  - intros d eid ets gts e err -> -> -> -> Pe Pg. now rewrite Pe, Pg.
Qed.

(** X4: the enqueue time decoded from the milliseconds keeps their order:
    a larger int64 gateway_ts decodes to a later instant, so distinct
    millisecond stamps never decode to the same instant. *)
Theorem X4_enqueue_time_monotone (g1 g2 : Z) :
  Int64.in_range g1 -> Int64.in_range g2 -> g1 < g2 ->
  let t1 := time_Unix (fst (unix g1)) (snd (unix g1)) in
  let t2 := time_Unix (fst (unix g2)) (snd (unix g2)) in
  Time_After t2 t1 = true /\ Time_After t1 t2 = false /\ t1 <> t2.
Proof.
  intros H1 H2 Hlt t1 t2. subst t1 t2.
  rewrite (unix_exact g1 H1), (unix_exact g2 H2). cbn [fst snd].
  rewrite (unix_instant g1 H1), (unix_instant g2 H2).
  pose proof (Z.div_mod g1 1000 ltac:(lia)) as D1.
  pose proof (Z.div_mod g2 1000 ltac:(lia)) as D2.
  pose proof (Z.mod_pos_bound g1 1000 ltac:(lia)) as M1.
  pose proof (Z.mod_pos_bound g2 1000 ltac:(lia)) as M2.
  unfold Time_After. cbn [t_sec t_nsec].
  assert (Hq : g1 / 1000 <= g2 / 1000) by (apply Z.div_le_mono; lia).
  repeat split.
  - destruct (Z.ltb_spec (g1 / 1000) (g2 / 1000)) as [Hs | Hs]; [ reflexivity | ].
    cbn [orb]. apply andb_true_intro. split.
    + apply Z.eqb_eq. lia.
    + apply Z.ltb_lt. lia.
  - destruct (Z.ltb_spec (g2 / 1000) (g1 / 1000)) as [Hs | Hs]; [ lia | ].
    cbn [orb]. apply andb_false_iff.
    destruct (Z.eqb_spec (g1 / 1000) (g2 / 1000)) as [E | N];
      [ right; apply Z.ltb_ge; lia | left; reflexivity ].
  - intros [= E1 E2]. lia.
Qed.

(** X5: the instant decoded from [g] milliseconds is in normal form and
    is [g] milliseconds: its nanoseconds lie in [0, 10^9) and are whole
    milliseconds, seconds and milliseconds add up to [g], and in
    nanoseconds it is [g * 10^6] whenever that fits int64. *)
Theorem X5_enqueue_time_exact (g : Z) :
  Int64.in_range g ->
  let t := time_Unix (fst (unix g)) (snd (unix g)) in
  0 <= t_nsec t < 1000000000
  /\ t_nsec t mod 1000000 = 0
  /\ t_sec t * 1000 + t_nsec t / 1000000 = g
  /\ (Int64.in_range (g * 1000000) -> Time_UnixNano t = g * 1000000).
Proof.
  intros Hg t. subst t.
  rewrite (unix_exact g Hg). cbn [fst snd]. rewrite (unix_instant g Hg).
  pose proof (Z.div_mod g 1000 ltac:(lia)) as D.
  pose proof (Z.mod_pos_bound g 1000 ltac:(lia)) as M.
  cbn [t_sec t_nsec].
  repeat split; try lia.
  - apply Z.mod_mul. lia.
  - rewrite Z.div_mul by lia. lia.
  - intros Hr. unfold Time_UnixNano. cbn [t_sec t_nsec].
    replace (g / 1000 * 1000000000 + g mod 1000 * 1000000)
      with (g * 1000000) by lia.
    apply wrap_in_range, Hr.
Qed.

(** The envelope of a published message decodes to what was published. *)
Lemma parseGatewayMessage_published clock e eventTimestamp eventID requestID
    jsonData (m : Message) :
  Int64.in_range eventTimestamp ->
  Int64.in_range clock ->
  Values m
  = Values (Publish_message clock e eventTimestamp eventID requestID jsonData) ->
  parseGatewayMessage m
  = inr (eventID, mkTime eventTimestamp 0,
         mkTime (Z.quot clock 1000000 / 1000)
                (Z.quot clock 1000000 mod 1000 * 1000000),
         string_of_list_byte jsonData)
  /\ Int64.in_range (Z.quot clock 1000000)
  /\ Time_UnixNano (mkTime (Z.quot clock 1000000 / 1000)
                           (Z.quot clock 1000000 mod 1000 * 1000000))
     = Z.quot clock 1000000 * 1000000.
Proof.
  intros Hts Hclock Hvals.
  pose proof Hclock as Hc.
  unfold Int64.in_range, Int64.min_int, Int64.max_int in Hc.
  pose proof (Z.quot_rem' clock 1000000) as Hqr.
  destruct (rem_bounds clock 1000000 ltac:(lia)) as [Hr1 Hr2].
  set (ms := Z.quot clock 1000000) in *.
  assert (Hms : Int64.in_range ms)
    by (unfold Int64.in_range, Int64.min_int, Int64.max_int; lia).
  assert (Hstamp : Int64.div (Time_UnixNano (time_Unix 0 clock)) Millisecond = ms).
  { rewrite (UnixNano_now clock Hclock). unfold Int64.div, Millisecond.
    apply wrap_in_range, Hms. }
  split; [ | split; [ exact Hms | ] ].
  - rewrite <- (unix_instant ms Hms), <- (time_Unix_whole eventTimestamp).
    apply parseGatewayMessage_ok
      with (ets := strconv.FormatInt eventTimestamp) (gts := strconv.FormatInt ms);
      rewrite ?Hvals; unfold Publish_message; cbn [Values];
      rewrite ?Hstamp; try (by simplify_map_eq);
      apply ParseInt_FormatInt; assumption.
  - unfold Time_UnixNano. cbn [t_sec t_nsec].
    pose proof (Z.div_mod ms 1000 ltac:(lia)).
    replace (ms / 1000 * 1000000000 + ms mod 1000 * 1000000)
      with (ms * 1000000) by lia.
    apply wrap_in_range.
    unfold Int64.in_range, Int64.min_int, Int64.max_int. lia.
Qed.

(** X6: what is published later is decoded as enqueued no earlier, and,
    for a clock at or after the epoch, as strictly later once the
    publisher's clock has advanced by a millisecond. *)
Theorem X6_publish_order_kept clock1 clock2 e1 e2 ts1 ts2 id1 id2 r1 r2 j1 j2 :
  Int64.in_range ts1 -> Int64.in_range ts2 ->
  Int64.in_range clock1 -> Int64.in_range clock2 ->
  clock1 <= clock2 ->
  exists et1 gt1 d1 et2 gt2 d2,
    parseGatewayMessage (Publish_message clock1 e1 ts1 id1 r1 j1)
    = inr (id1, et1, gt1, d1)
    /\ parseGatewayMessage (Publish_message clock2 e2 ts2 id2 r2 j2)
       = inr (id2, et2, gt2, d2)
    /\ Time_After gt1 gt2 = false
    /\ (0 <= clock1 -> clock1 + Millisecond <= clock2 ->
        Time_After gt2 gt1 = true).
Proof.
  intros Ht1 Ht2 Hc1 Hc2 Hle.
  destruct (parseGatewayMessage_published clock1 e1 ts1 id1 r1 j1 _ Ht1 Hc1 eq_refl)
    as (P1 & R1 & _).
  destruct (parseGatewayMessage_published clock2 e2 ts2 id2 r2 j2 _ Ht2 Hc2 eq_refl)
    as (P2 & R2 & _).
  eexists _, _, _, _, _, _.
  split; [ exact P1 | ]. split; [ exact P2 | ].
  pose proof (Z.quot_le_mono clock1 clock2 1000000 ltac:(lia) Hle) as Hq.
  set (a := Z.quot clock1 1000000) in *. set (b := Z.quot clock2 1000000) in *.
  pose proof (Z.div_mod a 1000 ltac:(lia)) as D1.
  pose proof (Z.div_mod b 1000 ltac:(lia)) as D2.
  pose proof (Z.mod_pos_bound a 1000 ltac:(lia)) as M1.
  pose proof (Z.mod_pos_bound b 1000 ltac:(lia)) as M2.
  assert (Hd : a / 1000 <= b / 1000) by (apply Z.div_le_mono; lia).
  unfold Time_After. cbn [t_sec t_nsec]. split.
  - destruct (Z.ltb_spec (b / 1000) (a / 1000)) as [Hs | Hs]; [ lia | ].
    cbn [orb]. apply andb_false_iff.
    destruct (Z.eqb_spec (a / 1000) (b / 1000)) as [E | N];
      [ right; apply Z.ltb_ge; lia | left; reflexivity ].
  - intros Hpos Hms. unfold Millisecond in Hms.
    assert (Hab : a < b).
    { subst a b.
      pose proof (Z.quot_rem' clock1 1000000).
      pose proof (Z.quot_rem' clock2 1000000).
      destruct (rem_bounds clock1 1000000 ltac:(lia)) as [B1 _].
      destruct (rem_bounds clock2 1000000 ltac:(lia)) as [B2 _].
      specialize (B1 Hpos). specialize (B2 ltac:(lia)). lia. }
    destruct (Z.ltb_spec (a / 1000) (b / 1000)) as [Hs | Hs]; [ reflexivity | ].
    cbn [orb]. apply andb_true_intro. split.
    + apply Z.eqb_eq. lia.
    + apply Z.ltb_lt. lia.
Qed.

(** * Further properties of the dispatch wrappers *)

Ltac find_in :=
  solve [ assumption | reflexivity | left; find_in | right; find_in ].

Ltac in_fields :=
  cbn [fields lvl msg]; unfold TimeDiff;
  rewrite ?in_app_iff; cbn [In]; find_in.

Section Pipeline.

Context {SlackClient SlackUser ChannelSvc T : Type}.
Variables (label : string) (decode : list Byte.byte -> error + T)
          (baseLogger : Logger) (sc : SlackClient) (botUser : SlackUser)
          (csvc : ChannelSvc) (timeout : Duration)
          (fn : Handler SlackClient SlackUser ChannelSvc T).

Local Abbreviation pipeline :=
  (dispatch label decode baseLogger sc botUser csvc timeout fn).

Lemma dispatch_surfaces_only_handler_errors :
  surfaces_only_handler_errors label decode baseLogger sc botUser csvc
    timeout fn pipeline.
Proof using Type.
  intros m w e. unfold dispatch.
  destruct (parseGatewayMessage m) as [perr | [[[eid et] gt] d]] eqn:Hp;
    [ discriminate | ].
  destruct (json.Unmarshal decode (list_byte_of_string d)) as [uerr | p] eqn:Hu;
    [ discriminate | ].
  destruct (fn _ p _) as [[[shouldRetry discarded] err] w'] eqn:Hf.
  cbn [fst]. rewrite outcome_error_retry.
  destruct err as [e' |]; [ | discriminate ].
  destruct discarded; [ discriminate | ].
  destruct shouldRetry; [ | discriminate ].
  intros [= <-]. exists eid, et, gt, d, p, w'.
  split; [ reflexivity | ]. split; [ exact Hu | exact Hf ].
Qed.

Lemma dispatch_ends_with_log :
  ends_with_log label baseLogger pipeline.
Proof using Type.
  intros m w. unfold dispatch.
  destruct (parseGatewayMessage m) as [perr | [[[eid et] gt] d]] eqn:Hp.
  - eexists _, _. split; [ reflexivity | ].
    unfold stream_logger.
    repeat match goal with |- _ /\ _ => split end;
      try (intros; in_fields).
    + eexists. in_fields.
    + discriminate.
    + discriminate.
  - destruct (json.Unmarshal decode (list_byte_of_string d)) as [uerr | p].
    + eexists _, _. split; [ reflexivity | ].
      unfold event_logger, stream_logger.
      repeat match goal with |- _ /\ _ => split end;
        try (intros; in_fields).
      * eexists. in_fields.
      * intros eid' et' gt' d' [= <- <- <- <-].
        repeat split; in_fields.
      * discriminate.
    + destruct (fn _ p _) as [[[shouldRetry discarded] err] w'].
      eexists (trace w' ++ [ECancel (dispatch_Context timeout w)])%list, _.
      split; [ cbn [snd]; unfold world_at_return; cbn [trace];
               rewrite <- app_assoc; reflexivity | ].
      unfold event_logger, stream_logger.
      cbn [fst]. rewrite outcome_error_retry.
      destruct err as [e' |]; [ destruct discarded; [ | destruct shouldRetry ] | ];
        cbn [classify outcome_log];
        (repeat match goal with |- _ /\ _ => split end;
         try (intros; in_fields);
         [ eexists; in_fields
         | intros eid' et' gt' d' [= <- <- <- <-]; repeat split; in_fields
         | try discriminate ]).
      intros e [= <-]. repeat split; in_fields.
Qed.

Lemma dispatch_appends_one_dispatch :
  appends_one_dispatch fn pipeline.
Proof using Type.
  intros Happ m w. unfold dispatch.
  destruct (parseGatewayMessage m) as [perr | [[[eid et] gt] d]].
  - eexists. split; [ reflexivity | ]. left. eexists. reflexivity.
  - destruct (json.Unmarshal decode (list_byte_of_string d)) as [uerr | p].
    + eexists. split; [ reflexivity | ]. left. eexists. reflexivity.
    + destruct (Happ (dispatch_ctxer label baseLogger sc botUser csvc timeout
                                     m eid et gt w)
                     p (world_at_call timeout m eid et gt w)) as [hs Hhs].
      destruct (fn _ p _) as [[[shouldRetry discarded] err] w'].
      cbn [snd] in Hhs |- *. unfold world_at_return. cbn [trace].
      rewrite Hhs. unfold world_at_call. cbn [trace].
      eexists. split.
      * rewrite <- !app_assoc. reflexivity.
      * right. eexists _, _, hs, _. reflexivity.
Qed.


End Pipeline.

Section Wrappers.

Context {SlackClient SlackUser ChannelSvc : Type}.
Context {MessageEvent TeamJoinEvent MemberJoinedChannelEvent : Type}.
Variable decode_MessageEvent : list Byte.byte -> error + MessageEvent.
Variable decode_TeamJoinEvent : list Byte.byte -> error + TeamJoinEvent.
Variable decode_MemberJoinedChannelEvent :
  list Byte.byte -> error + MemberJoinedChannelEvent.
Variables (baseLogger : Logger) (sc : SlackClient) (botUser : SlackUser)
          (csvc : ChannelSvc) (timeout : Duration).
Variable f1 : Handler SlackClient SlackUser ChannelSvc MessageEvent.
Variable f2 : Handler SlackClient SlackUser ChannelSvc TeamJoinEvent.
Variable f3 : Handler SlackClient SlackUser ChannelSvc MemberJoinedChannelEvent.

Local Abbreviation message_run :=
  (messageHandlerFactory decode_MessageEvent baseLogger sc botUser csvc
                         timeout f1).
Local Abbreviation team_join_run :=
  (teamJoinHandlerFactory decode_TeamJoinEvent baseLogger sc botUser csvc
                          timeout f2).
Local Abbreviation channel_join_run :=
  (channelJoinHandlerFactory decode_MemberJoinedChannelEvent baseLogger sc
                             botUser csvc timeout f3).


(** X8: none of the three wrappers ever makes up an error.  Whatever the
    message, when a wrapper returns an error to the transport, envelope
    and payload had decoded and the handler, called on them, returned
    exactly that error with shouldRetry true and discarded false. *)
Theorem X8_errors_come_from_handler :
  surfaces_only_handler_errors "message" decode_MessageEvent baseLogger sc
    botUser csvc timeout f1 message_run
  /\ surfaces_only_handler_errors "team_join" decode_TeamJoinEvent baseLogger
       sc botUser csvc timeout f2 team_join_run
  /\ surfaces_only_handler_errors "channel_join"
       decode_MemberJoinedChannelEvent baseLogger sc botUser csvc timeout f3
       channel_join_run.
Proof using Type.
  split; [ | split ]; intros m w e.
  - rewrite messageHandlerFactory_dispatch.
    apply dispatch_surfaces_only_handler_errors.
  - rewrite teamJoinHandlerFactory_dispatch.
    apply dispatch_surfaces_only_handler_errors.
  - rewrite channelJoinHandlerFactory_dispatch.
    apply dispatch_surfaces_only_handler_errors.
Qed.

(** X9: every run of a wrapper, on any message and with any handler, ends
    by writing one log event that carries the base logger's fields, the
    wrapper's handler label, the transport message id, the stream and a
    duration, and, once the envelope decoded, the event id, event time and
    enqueue time; a run that returns an error logs it at error level with
    should_retry true. *)
Theorem X9_every_run_is_logged :
  ends_with_log "message" baseLogger message_run
  /\ ends_with_log "team_join" baseLogger team_join_run
  /\ ends_with_log "channel_join" baseLogger channel_join_run.
Proof using Type.
  split; [ | split ]; intros m w.
  - rewrite messageHandlerFactory_dispatch.
    apply (dispatch_ends_with_log "message" decode_MessageEvent).
  - rewrite teamJoinHandlerFactory_dispatch.
    apply (dispatch_ends_with_log "team_join" decode_TeamJoinEvent).
  - rewrite channelJoinHandlerFactory_dispatch.
    apply (dispatch_ends_with_log "channel_join"
             decode_MemberJoinedChannelEvent).
Qed.

(** X10: with a handler that only appends to the trace, a run of a wrapper
    appends either one log event (the message did not decode), or the
    creation of one context, the call, the handler's effects, the
    cancellation of that context and one log event.  A wrapper never
    loses earlier effects, never creates a second context and never
    leaves the one it created uncancelled. *)
Theorem X10_one_context_per_dispatch :
  appends_one_dispatch f1 message_run
  /\ appends_one_dispatch f2 team_join_run
  /\ appends_one_dispatch f3 channel_join_run.
Proof using Type.
  split; [ | split ]; intros Happ m w.
  - rewrite messageHandlerFactory_dispatch.
    now apply dispatch_appends_one_dispatch.
  - rewrite teamJoinHandlerFactory_dispatch.
    now apply dispatch_appends_one_dispatch.
  - rewrite channelJoinHandlerFactory_dispatch.
    now apply dispatch_appends_one_dispatch.
Qed.

End Wrappers.

(** * What of a message a dispatch depends on *)

Lemma parseGatewayMessage_ext (m m' : Message) :
  (forall k, In k decoded_fields -> Values m !! k = Values m' !! k) ->
  parseGatewayMessage m = parseGatewayMessage m'.
Proof.
  intros H. unfold parseGatewayMessage.
  rewrite <- (H "event_ts"), <- (H "gateway_ts"), <- (H "event_id"),
    <- (H "json") by (cbn; auto 6).
  reflexivity.
Qed.

Lemma dispatch_ext {SlackClient SlackUser ChannelSvc T : Type}
    (label : string) (decode : list Byte.byte -> error + T)
    (baseLogger : Logger) (sc : SlackClient) (botUser : SlackUser)
    (csvc : ChannelSvc) (timeout : Duration)
    (fn : Handler SlackClient SlackUser ChannelSvc T) (m m' : Message) w :
  ID m = ID m' ->
  Stream m = Stream m' ->
  (forall k, In k decoded_fields -> Values m !! k = Values m' !! k) ->
  dispatch label decode baseLogger sc botUser csvc timeout fn m w
  = dispatch label decode baseLogger sc botUser csvc timeout fn m' w.
Proof.
  intros Hid Hst Hv.
  unfold dispatch, dispatch_ctxer, world_at_call, event_logger, stream_logger.
  rewrite (parseGatewayMessage_ext m m' Hv), Hid, Hst. reflexivity.
Qed.

Section Inputs.

Context {SlackClient SlackUser ChannelSvc : Type}.
Context {MessageEvent TeamJoinEvent MemberJoinedChannelEvent : Type}.
Variable decode_MessageEvent : list Byte.byte -> error + MessageEvent.
Variable decode_TeamJoinEvent : list Byte.byte -> error + TeamJoinEvent.
Variable decode_MemberJoinedChannelEvent :
  list Byte.byte -> error + MemberJoinedChannelEvent.
Variables (baseLogger : Logger) (sc : SlackClient) (botUser : SlackUser)
          (csvc : ChannelSvc) (timeout : Duration).
Variable f1 : Handler SlackClient SlackUser ChannelSvc MessageEvent.
Variable f2 : Handler SlackClient SlackUser ChannelSvc TeamJoinEvent.
Variable f3 : Handler SlackClient SlackUser ChannelSvc MemberJoinedChannelEvent.

(** X16: a dispatch depends on the delivered message only through its
    transport id, its stream and the four decoded fields.  Two messages
    that agree on these are handled alike by each wrapper, in every world:
    the same handler call, the same log events, the same value returned.
    The request id and any further field of the envelope play no part. *)
Theorem X16_dispatch_reads_four_fields (m m' : Message) (w : World) :
  ID m = ID m' ->
  Stream m = Stream m' ->
  (forall k, In k decoded_fields -> Values m !! k = Values m' !! k) ->
  messageHandlerFactory decode_MessageEvent baseLogger sc botUser csvc
                        timeout f1 m w
  = messageHandlerFactory decode_MessageEvent baseLogger sc botUser csvc
                          timeout f1 m' w
  /\ teamJoinHandlerFactory decode_TeamJoinEvent baseLogger sc botUser csvc
                            timeout f2 m w
     = teamJoinHandlerFactory decode_TeamJoinEvent baseLogger sc botUser csvc
                              timeout f2 m' w
  /\ channelJoinHandlerFactory decode_MemberJoinedChannelEvent baseLogger sc
                               botUser csvc timeout f3 m w
     = channelJoinHandlerFactory decode_MemberJoinedChannelEvent baseLogger
                                 sc botUser csvc timeout f3 m' w.
Proof using Type.
  intros Hid Hst Hv.
  rewrite !messageHandlerFactory_dispatch, !teamJoinHandlerFactory_dispatch,
    !channelJoinHandlerFactory_dispatch.
  repeat split; now apply dispatch_ext.
Qed.

End Inputs.

(** * The deadline of a dispatch *)

Lemma time_Unix_normal sec nsec :
  Int64.in_range (sec + nsec / 1000000000) ->
  Int64.in_range (sec + nsec / 1000000000 + 1) ->
  time_Unix sec nsec
  = mkTime (sec + nsec / 1000000000) (nsec mod 1000000000).
Proof.
  unfold Int64.in_range, Int64.min_int, Int64.max_int. intros H1 H2.
  pose proof (Z.quot_rem' nsec 1000000000) as Hqr.
  pose proof (Z.div_mod nsec 1000000000 ltac:(lia)) as Hdm.
  pose proof (Z.mod_pos_bound nsec 1000000000 ltac:(lia)) as Hm.
  destruct (rem_bounds nsec 1000000000 ltac:(lia)) as [Hr1 Hr2].
  unfold time_Unix.
  destruct (Z.ltb_spec nsec 0) as [Hneg | Hpos]; cbn [orb].
  - specialize (Hr2 Hneg). unfold Int64.add, Int64.sub.
    rewrite (wrap_in_range (sec + Z.quot nsec 1000000000))
      by (unfold Int64.in_range, Int64.min_int, Int64.max_int; lia).
    destruct (Z.ltb_spec (nsec - Z.quot nsec 1000000000 * 1000000000) 0).
    + rewrite wrap_in_range
        by (unfold Int64.in_range, Int64.min_int, Int64.max_int; lia).
      f_equal; lia.
    + f_equal; lia.
  - specialize (Hr1 Hpos).
    destruct (Z.leb_spec 1000000000 nsec) as [Hbig | Hsmall].
    + unfold Int64.add, Int64.sub.
      rewrite (wrap_in_range (sec + Z.quot nsec 1000000000))
        by (unfold Int64.in_range, Int64.min_int, Int64.max_int; lia).
      destruct (Z.ltb_spec (nsec - Z.quot nsec 1000000000 * 1000000000) 0);
        [ lia | ].
      f_equal; lia.
    + f_equal; lia.
Qed.

(** X11: the context that [context.WithTimeout] makes for a dispatch has
    the deadline now + timeout to the nanosecond, whenever both are int64
    nanosecond instants.  A positive timeout puts the deadline after the
    time of the dispatch; with a zero or negative timeout the context has
    expired before the handler starts. *)
Theorem X11_deadline_is_now_plus_timeout (timeout : Duration) (w : World) :
  Int64.in_range (wall w) ->
  Int64.in_range (wall w + timeout) ->
  let c := fst (context_WithTimeout timeout w) in
  Time_UnixNano (deadline c) = wall w + timeout
  /\ (0 < timeout -> Time_After (deadline c) (fst (time_Now w)) = true)
  /\ (timeout <= 0 -> Time_After (deadline c) (fst (time_Now w)) = false)
  /\ snd (context_WithTimeout timeout w)
     = mkWorld (wall w) (trace w ++ [EWithTimeout c])%list.
Proof.
  intros Hw Hd c. subst c.
  unfold context_WithTimeout, time_Now. cbn [fst snd deadline].
  pose proof Hw as Hw'. pose proof Hd as Hd'.
  unfold Int64.in_range, Int64.min_int, Int64.max_int in Hw', Hd'.
  pose proof (Z.div_mod (wall w) 1000000000 ltac:(lia)) as D0.
  pose proof (Z.mod_pos_bound (wall w) 1000000000 ltac:(lia)) as M0.
  rewrite (time_Unix_normal 0 (wall w))
    by (unfold Int64.in_range, Int64.min_int, Int64.max_int; lia).
  rewrite Z.add_0_l.
  set (S := wall w / 1000000000) in *.
  set (N := wall w mod 1000000000) in *.
  unfold Time_Add. cbn [t_sec t_nsec].
  pose proof (Z.div_mod (N + timeout) 1000000000 ltac:(lia)) as D1.
  pose proof (Z.mod_pos_bound (N + timeout) 1000000000 ltac:(lia)) as M1.
  rewrite (time_Unix_normal S (N + timeout))
    by (unfold Int64.in_range, Int64.min_int, Int64.max_int; lia).
  set (Q := (N + timeout) / 1000000000) in *.
  set (R := (N + timeout) mod 1000000000) in *.
  repeat match goal with |- _ /\ _ => split end.
  - unfold Time_UnixNano. cbn [t_sec t_nsec].
    replace ((S + Q) * 1000000000 + R) with (wall w + timeout) by lia.
    apply wrap_in_range, Hd.
  - intros Hpos. unfold Time_After. cbn [t_sec t_nsec].
    destruct (Z.ltb_spec S (S + Q)) as [Hs | Hs]; [ reflexivity | ].
    cbn [orb]. apply andb_true_intro. split.
    + apply Z.eqb_eq. lia.
    + apply Z.ltb_lt. lia.
  - intros Hneg. unfold Time_After. cbn [t_sec t_nsec].
    destruct (Z.ltb_spec S (S + Q)) as [Hs | Hs]; [ lia | ].
    cbn [orb]. apply andb_false_iff.
    destruct (Z.eqb_spec (S + Q) S) as [E | Ne];
      [ right; apply Z.ltb_ge; lia | left; reflexivity ].
  - reflexivity.
Qed.

(** * The handler registry *)

Section Registry.

Context {SlackClient SlackUser ChannelSvc : Type}.
Context {MessageEvent TeamJoinEvent MemberJoinedChannelEvent : Type}.
Variable dM : list Byte.byte -> error + MessageEvent.
Variable dT : list Byte.byte -> error + TeamJoinEvent.
Variable dC : list Byte.byte -> error + MemberJoinedChannelEvent.

Local Abbreviation Queue := (I SlackClient SlackUser ChannelSvc).
Local Abbreviation HandlerOf T := (Handler SlackClient SlackUser ChannelSvc T).

(** X12: registering again for a category replaces the earlier handler
    and its timeout; the queue is as if only the later registration had
    been made.  This holds for each of the four registration methods. *)
Theorem X12_registration_replaces (i : Queue) t1 t2
    (f1 f2 : HandlerOf MessageEvent) (g1 g2 : HandlerOf TeamJoinEvent)
    (h1 h2 : HandlerOf MemberJoinedChannelEvent) :
  RegisterPublicMessagesHandler dM
    (RegisterPublicMessagesHandler dM i t1 f1) t2 f2
  = RegisterPublicMessagesHandler dM i t2 f2
  /\ RegisterPrivateMessagesHandler dM
       (RegisterPrivateMessagesHandler dM i t1 f1) t2 f2
     = RegisterPrivateMessagesHandler dM i t2 f2
  /\ RegisterTeamJoinsHandler dT (RegisterTeamJoinsHandler dT i t1 g1) t2 g2
     = RegisterTeamJoinsHandler dT i t2 g2
  /\ RegisterChannelJoinsHandler dC
       (RegisterChannelJoinsHandler dC i t1 h1) t2 h2
     = RegisterChannelJoinsHandler dC i t2 h2.
Proof using Type.
  unfold RegisterPublicMessagesHandler, RegisterPrivateMessagesHandler,
    registerMessageHandler, RegisterTeamJoinsHandler,
    RegisterChannelJoinsHandler, with_consumers, RegisterWithLastID.
  cbn [i_c i_l i_sc i_self i_cs].
  repeat split; f_equal; apply insert_insert_eq.
Qed.

(** The queue after the four registrations, public messages first. *)
Local Abbreviation wired i tp fp tq fq tj fj tc fc :=
  (RegisterChannelJoinsHandler dC
     (RegisterTeamJoinsHandler dT
        (RegisterPrivateMessagesHandler dM
           (RegisterPublicMessagesHandler dM i tp fp) tq fq) tj fj) tc fc).

(** X13: after the four registrations every named event has its consumer:
    the stream of the public message event is bound to the message wrapper
    of the public handler, the streams of the app-home, group, IM and
    multi-party-IM events to the message wrapper of the private handler,
    and the team-join and channel-join streams to their wrappers, each
    with its own timeout, the queue's logger and collaborators and the
    start id "$".  No other stream is touched, and the logger and
    collaborators of the queue are unchanged. *)
Theorem X13_four_registrations (i : Queue) tp tq tj tc
    (fp fq : HandlerOf MessageEvent) (fj : HandlerOf TeamJoinEvent)
    (fc : HandlerOf MemberJoinedChannelEvent) :
  let q := wired i tp fp tq fq tj fj tc fc in
  i_c q !! SlackMessageChannel
  = Some (mkRegisteredConsumer
            (messageHandlerFactory dM (i_l i) (i_sc i) (i_self i) (i_cs i) tp fp)
            "$")
  /\ (forall e,
        In e [SlackMessageAppHome; SlackMessageGroup; SlackMessageIM;
              SlackMessageMPIM] ->
        i_c q !! e
        = Some (mkRegisteredConsumer
                  (messageHandlerFactory dM (i_l i) (i_sc i) (i_self i)
                                         (i_cs i) tq fq)
                  "$"))
  /\ i_c q !! SlackTeamJoin
     = Some (mkRegisteredConsumer
               (teamJoinHandlerFactory dT (i_l i) (i_sc i) (i_self i)
                                       (i_cs i) tj fj)
               "$")
  /\ i_c q !! SlackChannelJoin
     = Some (mkRegisteredConsumer
               (channelJoinHandlerFactory dC (i_l i) (i_sc i) (i_self i)
                                          (i_cs i) tc fc)
               "$")
  /\ (forall s,
        ~ In s [slackPublicMessage; slackPrivateMessage; slackTeamJoin;
                slackChannelJoin] ->
        i_c q !! s = i_c i !! s)
  /\ i_l q = i_l i /\ i_sc q = i_sc i /\ i_self q = i_self i
  /\ i_cs q = i_cs i.
Proof using Type.
  intros q. subst q.
  unfold RegisterPublicMessagesHandler, RegisterPrivateMessagesHandler,
    registerMessageHandler, RegisterTeamJoinsHandler,
    RegisterChannelJoinsHandler, with_consumers, RegisterWithLastID.
  cbn [i_c i_l i_sc i_self i_cs].
  unfold SlackMessageChannel, SlackMessageAppHome, SlackMessageGroup,
    SlackMessageIM, SlackMessageMPIM, SlackTeamJoin, SlackChannelJoin,
    slackPublicMessage, slackPrivateMessage, slackTeamJoin, slackChannelJoin.
  repeat match goal with |- _ /\ _ => split end; try reflexivity.
  - repeat first [ rewrite lookup_insert_eq
                 | rewrite lookup_insert_ne by discriminate ].
    reflexivity.
  - intros e He. cbn [In] in He.
    assert (e = "slack_message_private") as ->
      by (repeat (destruct He as [<- | He]; [ reflexivity | ]); destruct He).
    repeat first [ rewrite lookup_insert_eq
                 | rewrite lookup_insert_ne by discriminate ].
    reflexivity.
  - repeat first [ rewrite lookup_insert_eq
                 | rewrite lookup_insert_ne by discriminate ].
    reflexivity.
  - repeat first [ rewrite lookup_insert_eq
                 | rewrite lookup_insert_ne by discriminate ].
    reflexivity.
  - intros s Hs. cbn [In] in Hs.
    rewrite !lookup_insert_ne; [ reflexivity | | | | ];
      intros E; apply Hs; rewrite E; auto 6.
Qed.

(** X14: registrations for different categories do not disturb each
    other: the four registrations made in the opposite order give the same
    queue. *)
Theorem X14_registration_order_free (i : Queue) tp tq tj tc
    (fp fq : HandlerOf MessageEvent) (fj : HandlerOf TeamJoinEvent)
    (fc : HandlerOf MemberJoinedChannelEvent) :
  RegisterPublicMessagesHandler dM
    (RegisterPrivateMessagesHandler dM
       (RegisterTeamJoinsHandler dT
          (RegisterChannelJoinsHandler dC i tc fc) tj fj) tq fq) tp fp
  = wired i tp fp tq fq tj fj tc fc.
Proof using Type.
  unfold RegisterPublicMessagesHandler, RegisterPrivateMessagesHandler,
    registerMessageHandler, RegisterTeamJoinsHandler,
    RegisterChannelJoinsHandler, with_consumers, RegisterWithLastID.
  cbn [i_c i_l i_sc i_self i_cs]. f_equal.
  unfold slackPublicMessage, slackPrivateMessage, slackTeamJoin,
    slackChannelJoin.
  apply map_eq. intros s.
  rewrite !lookup_insert.
  repeat case_decide; subst; solve [ reflexivity | discriminate ].
Qed.

End Registry.

(** * The test helper *)

Lemma prefix_refl s : String.prefix s s = true.
Proof.
  induction s as [| c s IH]; [ reflexivity | ].
  cbn. destruct (ascii_dec c c); [ exact IH | congruence ].
Qed.

Lemma Contains_refl s : strings.Contains s s = true.
Proof.
  destruct s; cbn [strings.Contains]; rewrite prefix_refl; reflexivity.
Qed.

Lemma length_pos_nonempty s :
  (0 <? String.length s)%nat = true <-> s <> EmptyString.
Proof.
  destruct s; cbn; split; intros H; congruence.
Qed.

Section ConfigTestProperties.

Variable Error : error -> string.

(** X15: [testErrCheck] lets the test go on exactly when no error was
    expected and none came.  It returns false, without failing, exactly
    when an error was expected and came with a message containing the
    expected text (the whole message is such a text).  In every other
    case it stops the test with [t.Fatalf]: an expected error that did
    not come or whose message lacks the text, or an error nobody
    expected. *)
Theorem X15_testErrCheck (name errContains : string) (err : option error) :
  (testErrCheck Error name errContains err = Return true
   <-> errContains = EmptyString /\ err = None)
  /\ (testErrCheck Error name errContains err = Return false
      <-> errContains <> EmptyString
          /\ exists e, err = Some e
                       /\ strings.Contains (Error e) errContains = true)
  /\ (forall e, err = Some e -> errContains = Error e ->
      errContains <> EmptyString ->
      testErrCheck Error name errContains err = Return false)
  /\ ((exists format args,
         testErrCheck Error name errContains err = Fatalf format args)
      <-> (errContains <> EmptyString
           /\ (err = None
               \/ exists e, err = Some e
                            /\ strings.Contains (Error e) errContains = false))
          \/ (errContains = EmptyString /\ err <> None)).
Proof using Type.
  unfold testErrCheck.
  destruct errContains as [| c rest].
  - cbn [String.length Nat.ltb Nat.leb Nat.eqb].
    destruct err as [e |].
    + split; [ | split; [ | split ] ].
      * split; [ discriminate | intros [_ H]; discriminate H ].
      * split; [ discriminate | intros [H _]; congruence ].
      * intros e' _ _ H. congruence.
      * split; [ intros _; right; split; [ reflexivity | discriminate ]
               | intros _; eauto ].
    + split; [ | split; [ | split ] ].
      * split; [ intros _; split; reflexivity | reflexivity ].
      * split; [ discriminate | intros [H _]; congruence ].
      * intros e' H. discriminate H.
      * split; [ intros (? & ? & H); discriminate H
               | intros [[H _] | [_ H]]; congruence ].
  - assert (Hne : String c rest <> EmptyString) by discriminate.
    cbn [String.length Nat.ltb Nat.leb].
    destruct err as [e |].
    + destruct (strings.Contains (Error e) (String c rest)) eqn:Hc;
        cbn [negb]; (split; [ | split; [ | split ] ]).
      * split; [ discriminate | intros [H _]; discriminate H ].
      * split; [ intros _; split; [ exact Hne | eauto ] | reflexivity ].
      * reflexivity.
      * split; [ intros (? & ? & H); discriminate H | ].
        intros [(_ & [H | (e' & [= <-] & H)]) | [H _]]; congruence.
      * split; [ discriminate | intros [H _]; discriminate H ].
      * split; [ discriminate | ].
        intros (_ & e' & [= <-] & H). congruence.
      * intros e' [= <-] E _. rewrite E, Contains_refl in Hc. discriminate Hc.
      * split; [ intros _; left; split; [ exact Hne | right; eauto ]
               | intros _; eauto ].
    + split; [ | split; [ | split ] ].
      * split; [ discriminate | intros [H _]; discriminate H ].
      * split; [ discriminate | intros (_ & e' & H & _); discriminate H ].
      * intros e' H. discriminate H.
      * split; [ intros _; left; split; [ exact Hne | left; reflexivity ]
               | intros _; eauto ].
Qed.

End ConfigTestProperties.

(** * The theorems at concrete inputs *)

(** A handler that overruns a 50 ms deadline by two seconds and returns a
    retryable error: its own error goes to the transport. *)
Lemma C1_retry_contract_witness :
  parseGatewayMessage scenario_envelope
  = inr ("e1", mkTime 1700000000 0, mkTime 1700000000 500000000,
         scenario_payload)
  /\ fst (messageHandlerFactory decode_any [] tt tt tt timeout50 handler_slow
             scenario_envelope world0)
     = Some (errors_New "slack: timeout").
Proof.
  split; [ reflexivity | ].
  destruct (C1_retry_contract decode_any [] tt tt tt timeout50 handler_slow
              scenario_envelope world0 "e1" (mkTime 1700000000 0)
              (mkTime 1700000000 500000000) scenario_payload (Some tt)
              true false (Some (errors_New "slack: timeout"))
              (mkWorld (wall world0 + 2000000000)
                 (trace (world_at_call timeout50 scenario_envelope "e1"
                           (mkTime 1700000000 0)
                           (mkTime 1700000000 500000000) world0)))
              eq_refl eq_refl eq_refl) as (Hiff & Heq & _).
  apply Heq. apply Hiff. repeat split; discriminate.
Defined.



(** An envelope whose event_ts is not a numeral is logged and
    acknowledged. *)
Lemma C3_undecodable_absorbed_witness :
  parseGatewayMessage envelope_bad_event_ts = inl bad_event_ts_error
  /\ fst (messageHandlerFactory decode_any [] tt tt tt timeout50 handler_ok
             envelope_bad_event_ts world0) = None.
Proof.
  split; [ reflexivity | ].
  destruct (C3_undecodable_absorbed decode_any decode_any decode_any [] tt tt tt
              timeout50 envelope_bad_event_ts world0
              (EnvelopeFailure bad_event_ts_error)) as (H & _).
  destruct (H eq_refl) as (ev & _ & _ & Hev).
  rewrite (Hev handler_ok). reflexivity.
Defined.

(** Publishing at 1700000000.123456789 s and decoding. *)
Lemma C4_publish_decode_roundtrip_witness :
  exists gt,
    parseGatewayMessage
      (Publish_message 1700000000123456789 SlackTeamJoin 1700000000 "e" "r"
                       (list_byte_of_string "{}"))
    = inr ("e", mkTime 1700000000 0, gt, "{}")
    /\ Time_UnixNano gt = 1700000000123000000.
Proof.
  destruct (C4_publish_decode_roundtrip
              (fun m (t : list Message) => (None, (t ++ [m])%list)) []
              (mkWorld 1700000000123456789 []) SlackTeamJoin
              1700000000 "e" "r" (list_byte_of_string "{}")
              (Publish_message 1700000000123456789 SlackTeamJoin 1700000000
                               "e" "r" (list_byte_of_string "{}")))
    as (_ & gt & Hp & _ & _ & Hn & _).
  - unfold Int64.in_range, Int64.min_int, Int64.max_int. lia.
  - unfold Int64.in_range, Int64.min_int, Int64.max_int. cbn [wall]. lia.
  - reflexivity.
  - exists gt. split; [ exact Hp | exact Hn ].
Defined.

(** Timestamps before the epoch: -1 s and -1500 ms. *)
Lemma C5_decoded_times_witness :
  parseGatewayMessage early_envelope
  = inr ("e2", mkTime (-1) 0, mkTime (-2) 500000000, "{}").
Proof.
  destruct C5_decoded_times as [H _].
  destruct (H early_envelope "-1" "-1500" "e2" "{}" (-1) (-1500)
              eq_refl eq_refl eq_refl eq_refl eq_refl eq_refl)
    as (et & gt & Hp & -> & _ & ->).
  exact Hp.
Defined.

(** A handler registered for private messages receives what is published
    as an IM message. *)
Lemma C6_event_streams_witness :
  rc_fn <$> (i_c (RegisterPrivateMessagesHandler decode_any
                    (mkI ∅ [] tt tt tt) timeout50 handler_ok)
               !! Stream (Publish_message 0 SlackMessageIM 0 "e" "r" []))
  = Some (messageHandlerFactory decode_any [] tt tt tt timeout50 handler_ok).
Proof.
  destruct (C6_event_streams (SlackClient := unit) (SlackUser := unit)
              (ChannelSvc := unit) decode_any)
    as (_ & _ & _ & _ & _ & _ & _ & _ & _ & _ & H & _).
  apply (H (mkI ∅ [] tt tt tt) timeout50 handler_ok SlackMessageIM 0 0 "e" "r" []).
  cbn. auto.
Defined.

(** The same slow handler under the three wrappers. *)
Lemma C7_one_pipeline_witness :
  fst (messageHandlerFactory decode_any [] tt tt tt timeout50 handler_slow
         scenario_envelope world0)
  = fst (teamJoinHandlerFactory decode_any [] tt tt tt timeout50 handler_slow
           scenario_envelope world0)
  /\ fst (teamJoinHandlerFactory decode_any [] tt tt tt timeout50 handler_slow
             scenario_envelope world0)
     = fst (channelJoinHandlerFactory decode_any [] tt tt tt timeout50
              handler_slow scenario_envelope world0).
Proof.
  destruct (C7_one_pipeline decode_any decode_any decode_any [] tt tt tt
              timeout50 handler_slow handler_slow handler_slow
              scenario_envelope world0) as (_ & _ & _ & _ & H).
  destruct (H "e1" (mkTime 1700000000 0) (mkTime 1700000000 500000000)
              scenario_payload (Some tt) (Some tt) (Some tt)
              true false (Some (errors_New "slack: timeout"))
              _ _ _ eq_refl eq_refl eq_refl eq_refl eq_refl eq_refl eq_refl)
    as (_ & _ & _ & _ & _ & H12 & H23 & _).
  split; [ exact H12 | exact H23 ].
Defined.

(** A successful dispatch: create, call, cancel, then log. *)
Lemma C8_cancel_on_return_witness :
  exists ev,
    trace (snd (messageHandlerFactory decode_any [] tt tt tt timeout50
                  handler_ok scenario_envelope world0))
    = [EWithTimeout context50;
       ECall context50
         (mkEventMetadata "e1" (mkTime 1700000000 0)
            (mkTime 1700000000 500000000) "1526919030474-55");
       ECancel context50; ELog ev].
Proof.
  destruct (C8_cancel_on_return decode_any decode_any decode_any [] tt tt tt
              timeout50 scenario_envelope world0 "e1" (mkTime 1700000000 0)
              (mkTime 1700000000 500000000) scenario_payload
              false false None eq_refl) as (_ & _ & H & _).
  destruct (H handler_ok (Some tt) _ eq_refl eq_refl) as (ev & Hw & _).
  exists ev. rewrite Hw. reflexivity.
Defined.

(** Minus 1500 milliseconds. *)
Lemma C10_no_range_validation_witness :
  unix (-1500) = (-1, -500000000)
  /\ exists et gt,
      parseGatewayMessage early_envelope = inr ("e2", et, gt, "{}").
Proof.
  destruct (C10_no_range_validation (-1500)) as (Hu & _ & _ & _ & _ & _ & H).
  - unfold Int64.in_range, Int64.min_int, Int64.max_int. lia.
  - split; [ exact Hu | ].
    exact (H early_envelope "-1" "-1500" "e2" "{}" (-1)
             eq_refl eq_refl eq_refl eq_refl eq_refl eq_refl).
Defined.

(** * The further properties at concrete inputs *)

(** The scenario envelope and the one without request id, delivered under
    another transport id, decode alike. *)
Lemma X2_parse_reads_four_fields_witness :
  parseGatewayMessage scenario_envelope
  = parseGatewayMessage envelope_without_request_id.
Proof.
  apply X2_parse_reads_four_fields.
  intros k Hk. cbn [decoded_fields In] in Hk.
  destruct Hk as [<- | [<- | [<- | [<- | []]]]]; reflexivity.
Defined.

(** An event_ts that is no numeral is reported with the text and the
    syntax error of ParseInt. *)
Lemma X3_parse_check_order_witness :
  parseGatewayMessage envelope_bad_event_ts = inl bad_event_ts_error.
Proof.
  destruct (X3_parse_check_order envelope_bad_event_ts
              (IString "yesterday") (IString "1700000000500")
              (IString "e4") (IString "{}")
              eq_refl eq_refl eq_refl eq_refl) as (_ & _ & _ & _ & H & _).
  exact (H "{}" "e4" "yesterday" "1700000000500"
           (NumError "ParseInt" "yesterday" ErrSyntax)
           eq_refl eq_refl eq_refl eq_refl eq_refl).
Defined.

(** A stamp before the epoch decodes to an earlier instant than one
    after it. *)
Lemma X4_enqueue_time_monotone_witness :
  Time_After (time_Unix (fst (unix 1700000000500)) (snd (unix 1700000000500)))
             (time_Unix (fst (unix (-1500))) (snd (unix (-1500))))
  = true.
Proof.
  destruct (X4_enqueue_time_monotone (-1500) 1700000000500) as (H & _).
  - unfold Int64.in_range, Int64.min_int, Int64.max_int. lia.
  - unfold Int64.in_range, Int64.min_int, Int64.max_int. lia.
  - lia.
  - exact H.
Defined.

(** Minus 1500 milliseconds is the instant -2 s + 500 ms. *)
Lemma X5_enqueue_time_exact_witness :
  Time_UnixNano (time_Unix (fst (unix (-1500))) (snd (unix (-1500))))
  = -1500000000.
Proof.
  destruct (X5_enqueue_time_exact (-1500)) as (_ & _ & _ & H).
  - unfold Int64.in_range, Int64.min_int, Int64.max_int. lia.
  - apply H. unfold Int64.in_range, Int64.min_int, Int64.max_int. lia.
Defined.

(** Two publishes a millisecond apart. *)
Lemma X6_publish_order_kept_witness :
  exists et1 gt1 d1 et2 gt2 d2,
    parseGatewayMessage
      (Publish_message 1700000000123456789 SlackTeamJoin 1 "a" "r" [])
    = inr ("a", et1, gt1, d1)
    /\ parseGatewayMessage
         (Publish_message 1700000000124456789 SlackChannelJoin 2 "b" "r" [])
       = inr ("b", et2, gt2, d2)
    /\ Time_After gt2 gt1 = true.
Proof.
  destruct (X6_publish_order_kept 1700000000123456789 1700000000124456789
              SlackTeamJoin SlackChannelJoin 1 2 "a" "b" "r" "r" [] [])
    as (et1 & gt1 & d1 & et2 & gt2 & d2 & P1 & P2 & _ & H);
    try (unfold Int64.in_range, Int64.min_int, Int64.max_int; lia).
  exists et1, gt1, d1, et2, gt2, d2.
  split; [ exact P1 | ]. split; [ exact P2 | ].
  apply H; unfold Millisecond; lia.
Defined.


(** The error returned for the scenario envelope came from the handler. *)
Lemma X8_errors_come_from_handler_witness :
  exists eid et gt d,
    parseGatewayMessage scenario_envelope = inr (eid, et, gt, d).
Proof.
  destruct (X8_errors_come_from_handler decode_any decode_any decode_any
              [] tt tt tt timeout50 handler_slow handler_slow handler_slow)
    as (H & _).
  destruct (H scenario_envelope world0 (errors_New "slack: timeout") eq_refl)
    as (eid & et & gt & d & _ & _ & Hp & _).
  exists eid, et, gt, d. exact Hp.
Defined.

(** The log event of a run that returns an error. *)
Lemma X9_every_run_is_logged_witness :
  exists pre ev,
    trace (snd (messageHandlerFactory decode_any [] tt tt tt timeout50
                  handler_slow scenario_envelope world0))
    = (pre ++ [ELog ev])%list
    /\ lvl ev = ErrorLevel
    /\ In (FBool "should_retry" true) (fields ev).
Proof.
  destruct (X9_every_run_is_logged decode_any decode_any decode_any
              [] tt tt tt timeout50 handler_slow handler_slow handler_slow)
    as (H & _).
  destruct (H scenario_envelope world0)
    as (pre & ev & Ht & _ & _ & _ & _ & _ & _ & He).
  destruct (He (errors_New "slack: timeout") eq_refl) as (Hl & _ & Hb).
  exists pre, ev. split; [ exact Ht | ]. split; [ exact Hl | exact Hb ].
Defined.

(** A handler that appends nothing. *)
Lemma X10_one_context_per_dispatch_witness :
  exists added,
    trace (snd (messageHandlerFactory decode_any [] tt tt tt timeout50
                  handler_ok scenario_envelope world0))
    = (trace world0 ++ added)%list.
Proof.
  destruct (X10_one_context_per_dispatch decode_any decode_any decode_any
              [] tt tt tt timeout50 handler_ok handler_ok handler_ok)
    as (H & _).
  destruct (H (fun c p w0 => ex_intro _ [] (eq_sym (app_nil_r (trace w0))))
              scenario_envelope world0) as (added & Ht & _).
  exists added. exact Ht.
Defined.

(** Fifty milliseconds after 1700000001 s. *)
Lemma X11_deadline_is_now_plus_timeout_witness :
  Time_UnixNano (deadline (fst (context_WithTimeout timeout50 world0)))
  = 1700000001050000000.
Proof.
  destruct (X11_deadline_is_now_plus_timeout timeout50 world0) as (H & _).
  - unfold Int64.in_range, Int64.min_int, Int64.max_int, world0.
    cbn [wall]. lia.
  - unfold Int64.in_range, Int64.min_int, Int64.max_int, world0, timeout50,
      Millisecond.
    cbn [wall]. lia.
  - exact H.
Defined.

(** After the four registrations an IM message finds the private
    handler. *)
Lemma X13_four_registrations_witness :
  rc_fn <$>
    (i_c (RegisterChannelJoinsHandler decode_any
            (RegisterTeamJoinsHandler decode_any
               (RegisterPrivateMessagesHandler decode_any
                  (RegisterPublicMessagesHandler decode_any
                     (mkI ∅ [] tt tt tt) timeout50 handler_ok)
                  timeout50 handler_slow)
               timeout50 handler_ok)
            timeout50 handler_ok)
       !! SlackMessageIM)
  = Some (messageHandlerFactory decode_any [] tt tt tt timeout50 handler_slow).
Proof.
  destruct (X13_four_registrations decode_any decode_any decode_any
              (mkI ∅ [] tt tt tt) timeout50 timeout50 timeout50 timeout50
              handler_ok handler_slow handler_ok handler_ok)
    as (_ & H & _).
  rewrite (H SlackMessageIM); [ reflexivity | cbn; auto ].
Defined.

(** The expected text is the whole message. *)
Lemma X15_testErrCheck_witness :
  testErrCheck (fun _ => "failed to parse PORT") "LoadEnv()"
               "failed to parse PORT" (Some (errors_New "failed to parse PORT"))
  = Return false.
Proof.
  destruct (X15_testErrCheck (fun _ => "failed to parse PORT") "LoadEnv()"
              "failed to parse PORT"
              (Some (errors_New "failed to parse PORT")))
    as (_ & _ & H & _).
  apply (H (errors_New "failed to parse PORT")); [ reflexivity | reflexivity | ].
  discriminate.
Defined.

(** The scenario envelope with and without its request id, under the same
    transport id. *)
Lemma X16_dispatch_reads_four_fields_witness :
  messageHandlerFactory decode_any [] tt tt tt timeout50 handler_slow
    scenario_envelope world0
  = messageHandlerFactory decode_any [] tt tt tt timeout50 handler_slow
      (mkMessage (ID scenario_envelope) (Stream scenario_envelope)
                 (Values envelope_without_request_id))
      world0.
Proof.
  destruct (X16_dispatch_reads_four_fields decode_any decode_any decode_any
              [] tt tt tt timeout50 handler_slow handler_slow handler_slow
              scenario_envelope
              (mkMessage (ID scenario_envelope) (Stream scenario_envelope)
                         (Values envelope_without_request_id))
              world0) as (H & _).
  - reflexivity.
  - reflexivity.
  - intros k Hk. cbn [decoded_fields In] in Hk.
    destruct Hk as [<- | [<- | [<- | [<- | []]]]]; reflexivity.
  - exact H.
Defined.
